(** * The panel resize handler, embedded in Rocq

    A shallow embedding of the [panel-resize-handler] web component and of
    its [throttle] helper.  The repository holds two variants of the
    component class:

    - the variant that reads its attributes once, in [connectedCallback]
      (it imports [html] and [throttle] from [../utils]); it is embedded in
      [Module PanelResizeHandler];
    - [frontend/src/handlers/resizeHandlers.ts], which re-reads the [resize]
      attribute in every handler and follows attribute changes through
      [attributeChangedCallback]; it is embedded in [Module ResizeHandlers].

    Both act on the same kind of world: the fields of the instance, the part
    of the DOM the handlers touch (the attributes, the two element siblings,
    two inline styles, the listener lists of the handle, the document and
    the window) and the closures made by [throttle].

    Conventions of the embedding.
    - A JavaScript number is a rational ([Q]).  [Math.max] and [Math.min]
      return one of their operands, so the order facts proved here do not
      depend on rounding; products and quotients are exact here.
    - A handler is a function [World -> Completion World]; [Throw] is an
      exception leaving the handler, such as the [TypeError] of a property
      access on [null].
    - Time is a parameter: the handler that may call [setTimeout] takes the
      current time in milliseconds, and a pending timeout is its deadline. *)

From Stdlib Require Import ZArith QArith Qminmax QOrderedType String Ascii List Lia Bool.
From stdpp Require Import base option gmap strings list pretty.
Import ListNotations.

Local Open Scope Z_scope.

(** ** JavaScript values and built-ins *)

Module JS.

(** The result of running a statement list: normal completion with the
    new state, or an exception (the name of its constructor). *)
Inductive Completion (A : Type) : Type :=
| Normal (a : A)
| Throw (e : string).
Arguments Normal {A} a.
Arguments Throw {A} e.

Definition bind {A B} (m : Completion A) (k : A -> Completion B) : Completion B :=
  match m with
  | Normal a => k a
  | Throw e => Throw e
  end.

Definition TypeError : string := "TypeError".

(** [StrWhiteSpaceChar], for the code units below 256: TAB, LF, VT, FF,
    CR, SP and NBSP. *)
Definition isWhiteSpace (c : ascii) : bool :=
  let n := N_of_ascii c in
  ((9 <=? n) && (n <=? 13) || (n =? 32) || (n =? 160))%N.

Fixpoint trimStart (s : string) : string :=
  match s with
  | EmptyString => EmptyString
  | String c r => if isWhiteSpace c then trimStart r else s
  end.

(** The value of a code unit as a digit: 0-9, then a-z and A-Z for 10-35. *)
Definition digitValue (c : ascii) : option Z :=
  let n := Z.of_N (N_of_ascii c) in
  if (48 <=? n) && (n <=? 57) then Some (n - 48)
  else if (97 <=? n) && (n <=? 122) then Some (n - 87)
  else if (65 <=? n) && (n <=? 90) then Some (n - 55)
  else None.

(** The longest prefix of [s] made of digits of radix [R]. *)
Fixpoint radixDigits (R : Z) (s : string) : list Z :=
  match s with
  | EmptyString => []
  | String c r =>
      match digitValue c with
      | Some d => if d <? R then d :: radixDigits R r else []
      | None => []
      end
  end.

Definition mathInt (R : Z) (ds : list Z) : Z :=
  fold_left (fun acc d => acc * R + d) ds 0.

(** [parseInt(string)] with no radix argument.  [None] is NaN; the result
    is the mathematical integer ([-0] is [0], and integers beyond 2^53
    are not rounded). *)
Definition parseInt (s : string) : option Z :=
  let S0 := trimStart s in
  let '(sign, S1) :=
    match S0 with
    | String c r =>
        if Ascii.eqb c "-" then (-1, r)
        else if Ascii.eqb c "+" then (1, r)
        else (1, S0)
    | EmptyString => (1, S0)
    end in
  let '(R, S2) :=
    match S1 with
    | String c0 (String c1 r) =>
        if Ascii.eqb c0 "0" && (Ascii.eqb c1 "x" || Ascii.eqb c1 "X")
        then (16, r) else (10, S1)
    | _ => (10, S1)
    end in
  match radixDigits R S2 with
  | [] => None
  | ds => Some (sign * mathInt R ds)
  end.

(** [n || d] for a number [n] that is NaN or an integer: NaN and 0 are
    falsy. *)
Definition orNumber (n : option Z) (d : Z) : Z :=
  match n with
  | Some v => if v =? 0 then d else v
  | None => d
  end.

(** [s || ""] for [s : string | null]. *)
Definition orEmpty (s : option string) : string :=
  match s with
  | Some v => v
  | None => EmptyString
  end.

(** [ToString] of [string | null]. *)
Definition toString (s : option string) : string :=
  match s with
  | Some v => v
  | None => "null"
  end.

Definition lowerChar (c : ascii) : ascii :=
  let n := N_of_ascii c in
  if ((65 <=? n) && (n <=? 90))%N then ascii_of_N (n + 32) else c.

Fixpoint lowerString (s : string) : string :=
  match s with
  | EmptyString => EmptyString
  | String c r => String (lowerChar c) (lowerString r)
  end.

(** [s.toLowerCase()] for [s : string | null]: a property access on
    [null] throws. *)
Definition toLowerCase (s : option string) : Completion string :=
  match s with
  | Some v => Normal (lowerString v)
  | None => Throw TypeError
  end.

End JS.

Import JS.

#[global] Instance Completion_ret : MRet Completion := @Normal.
#[global] Instance Completion_bind : MBind Completion :=
  fun A B k m => bind m k.

(** ** The world of one handle *)

(** The two accepted values of the [resize] attribute. *)
Inductive Direction : Type := Left | Right.

(** The inline [style.display] of an element: never written, ["none"] or
    ["block"]. *)
Inductive Display : Type := DisplayUnset | DisplayNone | DisplayBlock.

(** A sibling panel: its inline [display], its inline [flex-basis] in px
    ([None] while never written) and the width of its layout box, which
    [getBoundingClientRect().width] reads. *)
Record Element : Type := {
  display : Display;
  flexBasis : option Q;
  rectWidth : Q
}.

Definition set_display (v : Display) (e : Element) : Element :=
  {| display := v; flexBasis := flexBasis e; rectWidth := rectWidth e |}.

Definition set_flexBasis (v : option Q) (e : Element) : Element :=
  {| display := display e; flexBasis := v; rectWidth := rectWidth e |}.

Definition set_rectWidth (v : Q) (e : Element) : Element :=
  {| display := display e; flexBasis := flexBasis e; rectWidth := v |}.

(** The methods bound in the constructor.  A bound method is one function
    object for the life of the instance, so it is its own identity as a
    listener. *)
Inductive Method : Type :=
| HandleMouseEnter | HandleMouseLeave | HandleMouseDown
| HandleMouseMove | HandleMouseUp | AdjustPanelWidth.

(** A function object handed to [addEventListener]: a bound method, or the
    arrow function returned by one call of [throttle], named by the index of
    its closure record. *)
Inductive Callback : Type :=
| Bound (m : Method)
| Throttled (id : nat).

#[global] Instance Method_eq_dec : EqDecision Method.
Proof. solve_decision. Defined.

#[global] Instance Callback_eq_dec : EqDecision Callback.
Proof. solve_decision. Defined.

(** A registered listener: the event type and the function object. *)
Definition Listener : Type := string * Callback.

(** The variables closed over by one arrow function made by [throttle]: the
    arguments [func] and [limit], the flag [inThrottle] ([undefined] at first,
    which is falsy: [false] here) and the deadlines of the pending
    [setTimeout] callbacks that will reset the flag. *)
Record Closure : Type := {
  func : Method;
  limit : Z;
  inThrottle : bool;
  timeouts : list Z
}.

Definition set_func (v : Method) (c : Closure) : Closure :=
  {| func := v; limit := limit c; inThrottle := inThrottle c; timeouts :=
     timeouts c |}.

Definition set_limit (v : Z) (c : Closure) : Closure :=
  {| func := func c; limit := v; inThrottle := inThrottle c; timeouts :=
     timeouts c |}.

Definition set_inThrottle (v : bool) (c : Closure) : Closure :=
  {| func := func c; limit := limit c; inThrottle := v; timeouts := timeouts c
     |}.

Definition set_timeouts (v : list Z) (c : Closure) : Closure :=
  {| func := func c; limit := limit c; inThrottle := inThrottle c; timeouts :=
     v |}.

(** The private fields of the instance.  [resizeHandlers.ts] spells three of
    them [MIN_WIDTH], [MAX_WIDTH_PERCENT] and [DEFAULT_WIDTH] and has no
    [resize] field. *)
Record Fields : Type := {
  isDragging : bool;
  initialX : Q;
  currentSiblingWidth : Q;
  minWidth : Z;
  maxWidthPercent : Z;
  defaultWidth : Z;
  resize : option Direction;
  isCollapsable : bool;
  isPanelCollapsed : bool
}.

Definition set_isDragging (v : bool) (f : Fields) : Fields :=
  {| isDragging := v; initialX := initialX f; currentSiblingWidth :=
     currentSiblingWidth f; minWidth := minWidth f; maxWidthPercent :=
     maxWidthPercent f; defaultWidth := defaultWidth f; resize := resize f;
     isCollapsable := isCollapsable f; isPanelCollapsed := isPanelCollapsed f
     |}.

Definition set_initialX (v : Q) (f : Fields) : Fields :=
  {| isDragging := isDragging f; initialX := v; currentSiblingWidth :=
     currentSiblingWidth f; minWidth := minWidth f; maxWidthPercent :=
     maxWidthPercent f; defaultWidth := defaultWidth f; resize := resize f;
     isCollapsable := isCollapsable f; isPanelCollapsed := isPanelCollapsed f
     |}.

Definition set_currentSiblingWidth (v : Q) (f : Fields) : Fields :=
  {| isDragging := isDragging f; initialX := initialX f; currentSiblingWidth
     := v; minWidth := minWidth f; maxWidthPercent := maxWidthPercent f;
     defaultWidth := defaultWidth f; resize := resize f; isCollapsable :=
     isCollapsable f; isPanelCollapsed := isPanelCollapsed f |}.

Definition set_minWidth (v : Z) (f : Fields) : Fields :=
  {| isDragging := isDragging f; initialX := initialX f; currentSiblingWidth
     := currentSiblingWidth f; minWidth := v; maxWidthPercent :=
     maxWidthPercent f; defaultWidth := defaultWidth f; resize := resize f;
     isCollapsable := isCollapsable f; isPanelCollapsed := isPanelCollapsed f
     |}.

Definition set_maxWidthPercent (v : Z) (f : Fields) : Fields :=
  {| isDragging := isDragging f; initialX := initialX f; currentSiblingWidth
     := currentSiblingWidth f; minWidth := minWidth f; maxWidthPercent := v;
     defaultWidth := defaultWidth f; resize := resize f; isCollapsable :=
     isCollapsable f; isPanelCollapsed := isPanelCollapsed f |}.

Definition set_defaultWidth (v : Z) (f : Fields) : Fields :=
  {| isDragging := isDragging f; initialX := initialX f; currentSiblingWidth
     := currentSiblingWidth f; minWidth := minWidth f; maxWidthPercent :=
     maxWidthPercent f; defaultWidth := v; resize := resize f; isCollapsable
     := isCollapsable f; isPanelCollapsed := isPanelCollapsed f |}.

Definition set_resize (v : option Direction) (f : Fields) : Fields :=
  {| isDragging := isDragging f; initialX := initialX f; currentSiblingWidth
     := currentSiblingWidth f; minWidth := minWidth f; maxWidthPercent :=
     maxWidthPercent f; defaultWidth := defaultWidth f; resize := v;
     isCollapsable := isCollapsable f; isPanelCollapsed := isPanelCollapsed f
     |}.

Definition set_isCollapsable (v : bool) (f : Fields) : Fields :=
  {| isDragging := isDragging f; initialX := initialX f; currentSiblingWidth
     := currentSiblingWidth f; minWidth := minWidth f; maxWidthPercent :=
     maxWidthPercent f; defaultWidth := defaultWidth f; resize := resize f;
     isCollapsable := v; isPanelCollapsed := isPanelCollapsed f |}.

Definition set_isPanelCollapsed (v : bool) (f : Fields) : Fields :=
  {| isDragging := isDragging f; initialX := initialX f; currentSiblingWidth
     := currentSiblingWidth f; minWidth := minWidth f; maxWidthPercent :=
     maxWidthPercent f; defaultWidth := defaultWidth f; resize := resize f;
     isCollapsable := isCollapsable f; isPanelCollapsed := v |}.

(** The part of the page the handlers read and write: the attributes of the
    handle, its two element siblings, [this.style.backgroundColor],
    [this.shadowRoot.innerHTML], [document.body.style.cursor],
    [window.innerWidth] and the console output. *)
Record Dom : Type := {
  attributes : gmap string string;
  previousElementSibling : option Element;
  nextElementSibling : option Element;
  backgroundColor : string;
  shadowInnerHTML : string;
  cursor : string;
  innerWidth : Z;
  console : list string
}.

Definition set_attributes (v : gmap string string) (d : Dom) : Dom :=
  {| attributes := v; previousElementSibling := previousElementSibling d;
     nextElementSibling := nextElementSibling d; backgroundColor :=
     backgroundColor d; shadowInnerHTML := shadowInnerHTML d; cursor := cursor
     d; innerWidth := innerWidth d; console := console d |}.

Definition set_previousElementSibling (v : option Element) (d : Dom) : Dom :=
  {| attributes := attributes d; previousElementSibling := v;
     nextElementSibling := nextElementSibling d; backgroundColor :=
     backgroundColor d; shadowInnerHTML := shadowInnerHTML d; cursor := cursor
     d; innerWidth := innerWidth d; console := console d |}.

Definition set_nextElementSibling (v : option Element) (d : Dom) : Dom :=
  {| attributes := attributes d; previousElementSibling :=
     previousElementSibling d; nextElementSibling := v; backgroundColor :=
     backgroundColor d; shadowInnerHTML := shadowInnerHTML d; cursor := cursor
     d; innerWidth := innerWidth d; console := console d |}.

Definition set_backgroundColor (v : string) (d : Dom) : Dom :=
  {| attributes := attributes d; previousElementSibling :=
     previousElementSibling d; nextElementSibling := nextElementSibling d;
     backgroundColor := v; shadowInnerHTML := shadowInnerHTML d; cursor :=
     cursor d; innerWidth := innerWidth d; console := console d |}.

Definition set_shadowInnerHTML (v : string) (d : Dom) : Dom :=
  {| attributes := attributes d; previousElementSibling :=
     previousElementSibling d; nextElementSibling := nextElementSibling d;
     backgroundColor := backgroundColor d; shadowInnerHTML := v; cursor :=
     cursor d; innerWidth := innerWidth d; console := console d |}.

Definition set_cursor (v : string) (d : Dom) : Dom :=
  {| attributes := attributes d; previousElementSibling :=
     previousElementSibling d; nextElementSibling := nextElementSibling d;
     backgroundColor := backgroundColor d; shadowInnerHTML := shadowInnerHTML
     d; cursor := v; innerWidth := innerWidth d; console := console d |}.

Definition set_innerWidth (v : Z) (d : Dom) : Dom :=
  {| attributes := attributes d; previousElementSibling :=
     previousElementSibling d; nextElementSibling := nextElementSibling d;
     backgroundColor := backgroundColor d; shadowInnerHTML := shadowInnerHTML
     d; cursor := cursor d; innerWidth := v; console := console d |}.

Definition set_console (v : list string) (d : Dom) : Dom :=
  {| attributes := attributes d; previousElementSibling :=
     previousElementSibling d; nextElementSibling := nextElementSibling d;
     backgroundColor := backgroundColor d; shadowInnerHTML := shadowInnerHTML
     d; cursor := cursor d; innerWidth := innerWidth d; console := v |}.

(** The listeners registered on the handle, on [document] and on [window],
    and the closures allocated by [throttle], in allocation order. *)
Record Events : Type := {
  handleListeners : list Listener;
  documentListeners : list Listener;
  windowListeners : list Listener;
  closures : list Closure
}.

Definition set_handleListeners (v : list Listener) (l : Events) : Events :=
  {| handleListeners := v; documentListeners := documentListeners l;
     windowListeners := windowListeners l; closures := closures l |}.

Definition set_documentListeners (v : list Listener) (l : Events) : Events :=
  {| handleListeners := handleListeners l; documentListeners := v;
     windowListeners := windowListeners l; closures := closures l |}.

Definition set_windowListeners (v : list Listener) (l : Events) : Events :=
  {| handleListeners := handleListeners l; documentListeners :=
     documentListeners l; windowListeners := v; closures := closures l |}.

Definition set_closures (v : list Closure) (l : Events) : Events :=
  {| handleListeners := handleListeners l; documentListeners :=
     documentListeners l; windowListeners := windowListeners l; closures := v
     |}.

(** Everything one handle instance can observe or change. *)
Record World : Type := {
  this : Fields;
  dom : Dom;
  events : Events
}.

Definition onThis (g : Fields -> Fields) (w : World) : World :=
  {| this := g (this w); dom := dom w; events := events w |}.

Definition onDom (g : Dom -> Dom) (w : World) : World :=
  {| this := this w; dom := g (dom w); events := events w |}.

Definition onEvents (g : Events -> Events) (w : World) : World :=
  {| this := this w; dom := dom w; events := g (events w) |}.

(** ** DOM operations *)

(** A reference to an element, as held by a local variable: the sibling
    before or after the handle. *)
Inductive Sibling : Type := Previous | Next.

Definition sibling (s : Sibling) (d : Dom) : option Element :=
  match s with
  | Previous => previousElementSibling d
  | Next => nextElementSibling d
  end.

Definition set_sibling (s : Sibling) (v : option Element) (d : Dom) : Dom :=
  match s with
  | Previous => set_previousElementSibling v d
  | Next => set_nextElementSibling v d
  end.

Definition getAttribute (name : string) (w : World) : option string :=
  attributes (dom w) !! name.

Definition hasAttribute (name : string) (w : World) : bool :=
  match getAttribute name w with
  | Some _ => true
  | None => false
  end.

(** A property read through [ref], which is [null] ([None]) or an element
    reference: reading through [null] throws. *)
Definition readElement {A} (ref : option Sibling) (g : Element -> A) (w : World)
  : Completion A :=
  match ref with
  | None => Throw TypeError
  | Some s =>
      match sibling s (dom w) with
      | Some e => Normal (g e)
      | None => Throw TypeError
      end
  end.

(** A property write through [ref]. *)
Definition writeElement (ref : option Sibling) (g : Element -> Element) (w : World)
  : Completion World :=
  match ref with
  | None => Throw TypeError
  | Some s =>
      match sibling s (dom w) with
      | Some e => Normal (onDom (set_sibling s (Some (g e))) w)
      | None => Throw TypeError
      end
  end.

(** [EventTarget.addEventListener]: a listener already present (same type,
    same function object) is not added again. *)
Definition addEventListener (type : string) (cb : Callback) (ls : list Listener)
  : list Listener :=
  if decide ((type, cb) ∈ ls) then ls else ls ++ [(type, cb)].

(** [EventTarget.removeEventListener]: removes the listener with this type
    and this function object, and does nothing when there is none. *)
Definition removeEventListener (type : string) (cb : Callback) (ls : list Listener)
  : list Listener :=
  filter (fun l => l ≠ (type, cb)) ls.

Definition addHandleListener (type : string) (cb : Callback) : World -> World :=
  onEvents (fun l => set_handleListeners (addEventListener type cb (handleListeners l)) l).

Definition removeHandleListener (type : string) (cb : Callback) : World -> World :=
  onEvents (fun l => set_handleListeners (removeEventListener type cb (handleListeners l)) l).

Definition addDocumentListener (type : string) (cb : Callback) : World -> World :=
  onEvents (fun l => set_documentListeners (addEventListener type cb (documentListeners l)) l).

Definition removeDocumentListener (type : string) (cb : Callback) : World -> World :=
  onEvents (fun l => set_documentListeners (removeEventListener type cb (documentListeners l)) l).

Definition addWindowListener (type : string) (cb : Callback) : World -> World :=
  onEvents (fun l => set_windowListeners (addEventListener type cb (windowListeners l)) l).

Definition removeWindowListener (type : string) (cb : Callback) : World -> World :=
  onEvents (fun l => set_windowListeners (removeEventListener type cb (windowListeners l)) l).

Definition consoleError (msg : string) : World -> World :=
  onDom (fun d => set_console (console d ++ [msg]) d).

(** [a > b] and [a <= b] on numbers. *)
Definition gt (a b : Q) : bool := negb (Qle_bool a b).
Definition le (a b : Q) : bool := Qle_bool a b.

(** [window.innerWidth * (percent / 100)]. *)
Definition maxWidthOf (w : World) : Q :=
  (inject_Z (innerWidth (dom w)) * (inject_Z (maxWidthPercent (this w)) / 100))%Q.

(** ** utils: throttle *)

(** [throttle(func, limit)] returns a new arrow function on every call: a
    fresh closure record is allocated and its index is the identity of the
    function object. *)
Definition throttle (m : Method) (lim : Z) (w : World) : Callback * World :=
  let id := length (closures (events w)) in
  (Throttled id,
   onEvents (fun l => set_closures
     (closures l ++ [{| func := m; limit := lim; inThrottle := false; timeouts := [] |}]) l) w).

Section EventLoop.

(** How the class runs each of its bound methods on an event whose
    [clientX] is the second argument. *)
Variable invoke : Method -> Q -> World -> Completion World.

(** A call, at time [now], of the arrow function whose closure is [id]:
    when the flag is falsy it applies [func], then sets the flag and
    schedules the timeout that resets it; otherwise it does nothing. *)
Definition callThrottled (id : nat) (now : Z) (ev : Q) (w : World) : Completion World :=
  match closures (events w) !! id with
  | None => Throw "ReferenceError"
  | Some c =>
      if negb (inThrottle c) then
        w1 ← invoke (func c) ev w;
        Normal (onEvents (fun l => set_closures
          (alter (fun c' => set_timeouts (timeouts c' ++ [now + limit c'])
                               (set_inThrottle true c')) id (closures l)) l) w1)
      else Normal w
  end.

Definition callListener (cb : Callback) (now : Z) (ev : Q) (w : World) : Completion World :=
  match cb with
  | Bound m => invoke m ev w
  | Throttled id => callThrottled id now ev w
  end.

(** The listeners of [type] among [ls] run in registration order.  An
    exception of a listener is kept as the result, to be seen by the
    theorems, where a browser would report it and go on. *)
Fixpoint dispatch (type : string) (ls : list Listener) (now : Z) (ev : Q) (w : World)
  : Completion World :=
  match ls with
  | [] => Normal w
  | (t, cb) :: rest =>
      if String.eqb t type then
        w1 ← callListener cb now ev w;
        dispatch type rest now ev w1
      else dispatch type rest now ev w
  end.

(** The timeouts whose deadline has passed at [now] run: each is
    [() => (inThrottle = false)].  A timeout never runs before its
    deadline. *)
Definition expire (now : Z) (c : Closure) : Closure :=
  if existsb (fun d => d <=? now) (timeouts c) then
    set_timeouts (List.filter (fun d => now <? d) (timeouts c)) (set_inThrottle false c)
  else c.

Definition runTimeouts (now : Z) : World -> World :=
  onEvents (fun l => set_closures (expire now <$> closures l) l).

(** What reaches the handle from outside. *)
Inductive Event : Type :=
| MouseEnter                 (* the pointer enters the handle *)
| MouseLeave                 (* the pointer leaves the handle *)
| MouseDown (clientX : Q)    (* primary press on the handle *)
| MouseMove (clientX : Q)    (* pointer move anywhere in the document *)
| MouseUp                    (* pointer release anywhere in the document *)
| Resize (width : Z)         (* the window gets a new inner width *)
| Reflow (s : Sibling) (width : Q)   (* layout gives a sibling a new box width *)
| Detach (s : Sibling).      (* a sibling is removed from the DOM *)

Definition reflow (s : Sibling) (width : Q) (d : Dom) : Dom :=
  match sibling s d with
  | Some e => set_sibling s (Some (set_rectWidth width e)) d
  | None => d
  end.

(** The event [e] reaches its target at time [now]: the listeners of its
    type run. *)
Definition deliver (now : Z) (e : Event) (w : World) : Completion World :=
  match e with
  | MouseEnter => dispatch "mouseenter" (handleListeners (events w)) now 0%Q w
  | MouseLeave => dispatch "mouseleave" (handleListeners (events w)) now 0%Q w
  | MouseDown x => dispatch "mousedown" (handleListeners (events w)) now x w
  | MouseMove x => dispatch "mousemove" (documentListeners (events w)) now x w
  | MouseUp => dispatch "mouseup" (documentListeners (events w)) now 0%Q w
  | Resize width =>
      let w := onDom (set_innerWidth width) w in
      dispatch "resize" (windowListeners (events w)) now 0%Q w
  | Reflow s width => Normal (onDom (reflow s width) w)
  | Detach s => Normal (onDom (set_sibling s None) w)
  end.

(** One turn of the event loop at time [now]: the due timeouts first, then
    the event. *)
Definition step (now : Z) (e : Event) (w : World) : Completion World :=
  deliver now e (runTimeouts now w).

Fixpoint run (trace : list (Z * Event)) (w : World) : Completion World :=
  match trace with
  | [] => Normal w
  | (now, e) :: rest => w1 ← step now e w; run rest w1
  end.

End EventLoop.

(** ** Constants shared by the two variants *)

Definition COLOR_HOVER_BG : string := "var(--resize-handler-hover-color , #baba69)".
Definition COLOR_TRANSPARENT : string := "transparent".

(** The style sheet [render] puts in the shadow root (white space aside). *)
Definition hostStyle : string :=
  "<style>:host { display: block; width: 4px; cursor: col-resize; background-color: transparent; transition: background-color 0.2s ease; z-index: 10; }</style>".

(** The field initialisers of the class, the same in both variants. *)
Definition initialFields : Fields :=
  {| isDragging := false; initialX := 0; currentSiblingWidth := 0;
     minWidth := 150; maxWidthPercent := 30; defaultWidth := 150;
     resize := None; isCollapsable := false; isPanelCollapsed := false |}.

Definition noEvents : Events :=
  {| handleListeners := []; documentListeners := []; windowListeners := [];
     closures := [] |}.

(** [new PanelResizeHandler()] in a page [d]. *)
Definition construct (d : Dom) : World :=
  {| this := initialFields; dom := d; events := noEvents |}.

(** [setBgColor(this, color)]: every call in both classes passes [this]. *)
Definition setBgColor (color : string) : World -> World :=
  onDom (set_backgroundColor color).

(** [render]: the shadow root is attached in the constructor, so the guard
    [if (!this.shadowRoot) return] never fires. *)
Definition render : World -> World :=
  onDom (set_shadowInnerHTML hostStyle).

(** The candidate width of a drag: [newWidth] in [handleMouseMove]. *)
Definition newWidth (d : Direction) (currentSiblingWidth initialX clientX : Q) : Q :=
  match d with
  | Left => (currentSiblingWidth + (clientX - initialX))%Q
  | Right => (currentSiblingWidth - (clientX - initialX))%Q
  end.

(** The block [if (this.isCollapsable) { ... }] of [handleMouseMove], the
    same text in both variants: two [if] statements in sequence. *)
Definition collapse (targetElement : option Sibling) (newWidth : Q) (w : World)
  : Completion World :=
  if isCollapsable (this w) then
    w1 ← (if le newWidth (inject_Z (minWidth (this w))) then
            w' ← writeElement targetElement (set_display DisplayNone) w;
            Normal (onThis (set_isPanelCollapsed true) w')
          else Normal w);
    if isPanelCollapsed (this w1) && gt newWidth 50 then
      w' ← writeElement targetElement (set_display DisplayBlock) w1;
      Normal (onThis (set_isPanelCollapsed false) w')
    else Normal w1
  else Normal w.

(** [Math.max(minWidth, Math.min(newWidth, maxWidth))] and the write of
    [flex-basis]. *)
Definition clampedWidth (newWidth : Q) (w : World) : Q :=
  Qmax (inject_Z (minWidth (this w))) (Qmin newWidth (maxWidthOf w)).

Definition clamp (targetElement : option Sibling) (newWidth : Q) (w : World)
  : Completion World :=
  writeElement targetElement (set_flexBasis (Some (clampedWidth newWidth w))) w.

(** [handleMouseEnter], [handleMouseLeave] and [handleMouseUp] are the same
    in both variants. *)
Definition handleMouseEnter (w : World) : Completion World :=
  Normal (onDom (set_cursor "col-resize") (setBgColor COLOR_HOVER_BG w)).

Definition handleMouseLeave (w : World) : Completion World :=
  if negb (isDragging (this w)) then
    Normal (onDom (set_cursor "default") (setBgColor COLOR_TRANSPARENT w))
  else Normal w.

Definition handleMouseUp (w : World) : Completion World :=
  let w := setBgColor COLOR_TRANSPARENT w in
  let w := onThis (set_isDragging false) w in
  let w := onDom (set_cursor "default") w in
  let w := removeDocumentListener "mousemove" (Bound HandleMouseMove) w in
  let w := removeDocumentListener "mouseup" (Bound HandleMouseUp) w in
  Normal w.

Definition setupEventListeners (w : World) : World :=
  let w := addHandleListener "mouseenter" (Bound HandleMouseEnter) w in
  let w := addHandleListener "mouseleave" (Bound HandleMouseLeave) w in
  addHandleListener "mousedown" (Bound HandleMouseDown) w.

Definition removeEventListeners (w : World) : World :=
  let w := removeHandleListener "mouseenter" (Bound HandleMouseEnter) w in
  let w := removeHandleListener "mouseleave" (Bound HandleMouseLeave) w in
  let w := removeHandleListener "mousedown" (Bound HandleMouseDown) w in
  let w := removeDocumentListener "mousemove" (Bound HandleMouseMove) w in
  removeDocumentListener "mouseup" (Bound HandleMouseUp) w.

(** [disconnectedCallback], the same in both variants: the argument of
    [window.removeEventListener] is a new call of [throttle]. *)
Definition disconnectedCallback (w : World) : Completion World :=
  let w := removeEventListeners w in
  let '(cb, w) := throttle AdjustPanelWidth 100 w in
  Normal (removeWindowListener "resize" cb w).

(** ** The variant that reads its attributes at mount *)

Module PanelResizeHandler.

Definition initializeFromAttributes (w : World) : World :=
  let w :=
    if hasAttribute "min-width" w then
      onThis (set_minWidth
        (orNumber (parseInt (orEmpty (getAttribute "min-width" w))) 150)) w
    else w in
  let w :=
    if hasAttribute "max-width-percent" w then
      onThis (set_maxWidthPercent
        (orNumber (parseInt (orEmpty (getAttribute "max-width-percent" w))) 30)) w
    else w in
  let w :=
    if hasAttribute "initial-width" w then
      onThis (set_defaultWidth
        (orNumber (parseInt (orEmpty (getAttribute "initial-width" w)))
                  (minWidth (this w)))) w
    else w in
  let resizeAttr := getAttribute "resize" w in
  let w :=
    match resizeAttr with
    | Some v =>
        if String.eqb v "left" then onThis (set_resize (Some Left)) w
        else if String.eqb v "right" then onThis (set_resize (Some Right)) w
        else consoleError
          "Invalid value for resize attribute. Valid values are 'left' or 'right'." w
    | None => w
    end in
  onThis (set_isCollapsable (hasAttribute "collapsable" w)) w.

Definition getTargetElement (w : World) : option Sibling :=
  match resize (this w), previousElementSibling (dom w), nextElementSibling (dom w) with
  | Some Left, Some _, _ => Some Previous
  | Some Right, _, Some _ => Some Next
  | _, _, _ => None
  end.

Definition applyDefaultWidth (w : World) : Completion World :=
  let targetElement := getTargetElement w in
  match targetElement with
  | Some _ =>
      writeElement targetElement
        (set_flexBasis (Some (inject_Z (defaultWidth (this w))))) w
  | None => Normal w
  end.

Definition adjustPanelWidth (w : World) : Completion World :=
  let maxWidth := maxWidthOf w in
  let targetElement := getTargetElement w in
  match targetElement with
  | Some _ =>
      currentWidth ← readElement targetElement rectWidth w;
      if gt currentWidth maxWidth && gt maxWidth (inject_Z (minWidth (this w))) then
        writeElement targetElement (set_flexBasis (Some maxWidth)) w
      else Normal w
  | None => Normal w
  end.

Definition connectedCallback (w : World) : Completion World :=
  let w := initializeFromAttributes w in
  let w := render w in
  let w := setupEventListeners w in
  w ← applyDefaultWidth w;
  w ← adjustPanelWidth w;
  let '(cb, w) := throttle AdjustPanelWidth 100 w in
  Normal (addWindowListener "resize" cb w).

(** [e.preventDefault()] acts on the event only; of the event the handler
    reads [clientX]. *)
Definition handleMouseDown (clientX : Q) (w : World) : Completion World :=
  let targetElement := getTargetElement w in
  match targetElement with
  | None => Normal w
  | Some _ =>
      let w := setBgColor COLOR_HOVER_BG w in
      let w := onDom (set_cursor "col-resize") w in
      let w := onThis (set_isDragging true) w in
      let w := onThis (set_initialX clientX) w in
      width ← readElement targetElement rectWidth w;
      let w := onThis (set_currentSiblingWidth width) w in
      let w := addDocumentListener "mousemove" (Bound HandleMouseMove) w in
      let w := addDocumentListener "mouseup" (Bound HandleMouseUp) w in
      Normal w
  end.

(** [this.resize === "left"] chooses the sum, anything else the
    difference. *)
Definition candidate (clientX : Q) (w : World) : Q :=
  match resize (this w) with
  | Some Left => newWidth Left (currentSiblingWidth (this w)) (initialX (this w)) clientX
  | _ => newWidth Right (currentSiblingWidth (this w)) (initialX (this w)) clientX
  end.

Definition handleMouseMove (clientX : Q) (w : World) : Completion World :=
  if negb (isDragging (this w)) then Normal w
  else
    let targetElement := getTargetElement w in
    match targetElement with
    | None => Normal w
    | Some _ =>
        let newWidth := candidate clientX w in
        w ← collapse targetElement newWidth w;
        clamp targetElement newWidth w
    end.

(** [observedAttributes] is empty and the body of
    [attributeChangedCallback] is empty. *)
Definition attributeChangedCallback (name : string) (oldValue newValue : option string)
  (w : World) : Completion World :=
  Normal w.

Definition invoke (m : Method) (clientX : Q) (w : World) : Completion World :=
  match m with
  | HandleMouseEnter => handleMouseEnter w
  | HandleMouseLeave => handleMouseLeave w
  | HandleMouseDown => handleMouseDown clientX w
  | HandleMouseMove => handleMouseMove clientX w
  | HandleMouseUp => handleMouseUp w
  | AdjustPanelWidth => adjustPanelWidth w
  end.

End PanelResizeHandler.

(** ** frontend/src/handlers/resizeHandlers.ts *)

Module ResizeHandlers.

(** The names of three fields in this file. *)
Abbreviation MIN_WIDTH := minWidth (only parsing).
Abbreviation MAX_WIDTH_PERCENT := maxWidthPercent (only parsing).
Abbreviation DEFAULT_WIDTH := defaultWidth (only parsing).
Abbreviation set_MIN_WIDTH := set_minWidth (only parsing).
Abbreviation set_MAX_WIDTH_PERCENT := set_maxWidthPercent (only parsing).
Abbreviation set_DEFAULT_WIDTH := set_defaultWidth (only parsing).

(** [resize === v] for [resize = this.getAttribute("resize")]. *)
Definition equals (resize : option string) (v : string) : bool :=
  match resize with
  | Some r => String.eqb r v
  | None => false
  end.

(** The test repeated in every handler:
    [resize === "left" && this.previousElementSibling], else
    [resize === "right" && this.nextElementSibling]. *)
Definition resolved (resize : option string) (w : World) : option Sibling :=
  if equals resize "left" && bool_decide (is_Some (previousElementSibling (dom w)))
  then Some Previous
  else if equals resize "right" && bool_decide (is_Some (nextElementSibling (dom w)))
  then Some Next
  else None.

Definition adjustPanelWidth (w : World) : Completion World :=
  let maxWidth := maxWidthOf w in
  let resize := getAttribute "resize" w in
  let targetElement := resolved resize w in
  match targetElement with
  | Some _ =>
      currentWidth ← readElement targetElement rectWidth w;
      if gt currentWidth maxWidth && gt maxWidth (inject_Z (MIN_WIDTH (this w))) then
        writeElement targetElement (set_flexBasis (Some maxWidth)) w
      else Normal w
  | None => Normal w
  end.

Definition connectedCallback (w : World) : Completion World :=
  let w := render w in
  let w := setupEventListeners w in
  w ← adjustPanelWidth w;
  let resize := getAttribute "resize" w in
  w ← match resolved resize w with
      | Some Previous =>
          w ← writeElement (Some Previous)
                (set_flexBasis (Some (inject_Z (DEFAULT_WIDTH (this w))))) w;
          Normal (onDom (fun d => set_console
                    (console d ++ [pretty (DEFAULT_WIDTH (this w)) +:+ "px"]) d) w)
      | Some Next =>
          writeElement (Some Next)
            (set_flexBasis (Some (inject_Z (DEFAULT_WIDTH (this w))))) w
      | None => Normal w
      end;
  let '(cb, w) := throttle AdjustPanelWidth 100 w in
  Normal (addWindowListener "resize" cb w).

(** No test of the target guards the fields or the listeners here: only
    the read of the width is under one. *)
Definition handleMouseDown (clientX : Q) (w : World) : Completion World :=
  let resize := getAttribute "resize" w in
  let w := setBgColor COLOR_HOVER_BG w in
  let w := onDom (set_cursor "col-resize") w in
  let w := onThis (set_isDragging true) w in
  let w := onThis (set_initialX clientX) w in
  w ← match resolved resize w with
      | Some s =>
          width ← readElement (Some s) rectWidth w;
          Normal (onThis (set_currentSiblingWidth width) w)
      | None => Normal w
      end;
  let w := addDocumentListener "mousemove" (Bound HandleMouseMove) w in
  let w := addDocumentListener "mouseup" (Bound HandleMouseUp) w in
  Normal w.

(** The guard [if (!targetElement) return] after the collapse block is kept
    as written; the target is never [null] there. *)
Definition handleMouseMove (clientX : Q) (w : World) : Completion World :=
  if negb (isDragging (this w)) then Normal w
  else
    let resize := getAttribute "resize" w in
    match resolved resize w with
    | Some s =>
        let targetElement := Some s in
        let newWidth :=
          match s with
          | Previous =>
              newWidth Left (currentSiblingWidth (this w)) (initialX (this w)) clientX
          | Next =>
              newWidth Right (currentSiblingWidth (this w)) (initialX (this w)) clientX
          end in
        w ← collapse targetElement newWidth w;
        match targetElement with
        | None => Normal w
        | Some _ => clamp targetElement newWidth w
        end
    | None =>
        Normal (consoleError
          "invalid attribute value \n valid attribute value for resize: left | right" w)
    end.

(** [newValue] is [null] when the attribute is removed, whatever the
    annotation [newValue: string] says. *)
Definition attributeChangedCallback (name : string) (oldValue newValue : option string)
  (w : World) : Completion World :=
  if String.eqb name "min-width" then
    Normal (onThis (set_MIN_WIDTH (orNumber (parseInt (toString newValue)) 150)) w)
  else if String.eqb name "max-width-percent" then
    Normal (onThis (set_MAX_WIDTH_PERCENT (orNumber (parseInt (toString newValue)) 30)) w)
  else if String.eqb name "default-width" then
    Normal (onThis (set_DEFAULT_WIDTH
      (orNumber (parseInt (toString newValue)) (MIN_WIDTH (this w)))) w)
  else if String.eqb name "collapsable" then
    lower ← toLowerCase newValue;
    Normal (onThis (set_isCollapsable (if String.eqb lower "false" then false else true)) w)
  else Normal w.

Definition observedAttributes : list string :=
  ["min-width"; "max-width-percent"; "default-width"; "resize"; "collapsable"].

Definition invoke (m : Method) (clientX : Q) (w : World) : Completion World :=
  match m with
  | HandleMouseEnter => handleMouseEnter w
  | HandleMouseLeave => handleMouseLeave w
  | HandleMouseDown => handleMouseDown clientX w
  | HandleMouseMove => handleMouseMove clientX w
  | HandleMouseUp => handleMouseUp w
  | AdjustPanelWidth => adjustPanelWidth w
  end.

(** The browser changes an observed attribute, or removes it
    ([newValue = None]), and calls back. *)
Definition setAttribute (name : string) (newValue : option string) (w : World)
  : Completion World :=
  let oldValue := getAttribute name w in
  let w := onDom (fun d => set_attributes
             (match newValue with
              | Some v => <[name := v]> (attributes d)
              | None => delete name (attributes d)
              end) d) w in
  if bool_decide (name ∈ observedAttributes)
  then attributeChangedCallback name oldValue newValue w
  else Normal w.

End ResizeHandlers.

(** ** The two variants side by side *)

Inductive Variant : Type := AtMount | Live.

Definition invokeOf (v : Variant) : Method -> Q -> World -> Completion World :=
  match v with
  | AtMount => PanelResizeHandler.invoke
  | Live => ResizeHandlers.invoke
  end.

(** The target element a handler of the variant resolves in [w]. *)
Definition targetOf (v : Variant) (w : World) : option Sibling :=
  match v with
  | AtMount => PanelResizeHandler.getTargetElement w
  | Live => ResizeHandlers.resolved (getAttribute "resize" w) w
  end.

(** The candidate width the move handler of the variant computes once the
    target is resolved to [s]. *)
Definition candidateOf (v : Variant) (s : Sibling) (clientX : Q) (w : World) : Q :=
  match v with
  | AtMount => PanelResizeHandler.candidate clientX w
  | Live =>
      match s with
      | Previous => newWidth Left (currentSiblingWidth (this w)) (initialX (this w)) clientX
      | Next => newWidth Right (currentSiblingWidth (this w)) (initialX (this w)) clientX
      end
  end.

Definition connectedCallbackOf (v : Variant) : World -> Completion World :=
  match v with
  | AtMount => PanelResizeHandler.connectedCallback
  | Live => ResizeHandlers.connectedCallback
  end.

(** ** Sample pages *)

Definition panel (width : Q) : Element :=
  {| display := DisplayUnset; flexBasis := None; rectWidth := width |}.

Definition page (attrs : gmap string string) (prev next : option Element) (vw : Z) : Dom :=
  {| attributes := attrs; previousElementSibling := prev; nextElementSibling := next;
     backgroundColor := ""; shadowInnerHTML := ""; cursor := ""; innerWidth := vw;
     console := [] |}.

(** A handle in the middle of a drag of the panel before it: the press was
    at x = 500 on a panel [base] px wide. *)
Definition dragging (min pct vw : Z) (base : Q) (collapsable collapsed : bool) : World :=
  {| this := {| isDragging := true; initialX := 500; currentSiblingWidth := base;
                minWidth := min; maxWidthPercent := pct; defaultWidth := min;
                resize := Some Left; isCollapsable := collapsable;
                isPanelCollapsed := collapsed |};
     dom := page {[ "resize" := "left" ]}
              (Some {| display := if collapsed then DisplayNone else DisplayUnset;
                       flexBasis := Some base; rectWidth := base |})
              None vw;
     events := {| handleListeners := [("mouseenter", Bound HandleMouseEnter);
                                      ("mouseleave", Bound HandleMouseLeave);
                                      ("mousedown", Bound HandleMouseDown)];
                  documentListeners := [("mousemove", Bound HandleMouseMove);
                                        ("mouseup", Bound HandleMouseUp)];
                  windowListeners := [("resize", Throttled 0)];
                  closures := [{| func := AdjustPanelWidth; limit := 100;
                                  inThrottle := false; timeouts := [] |}] |} |}.

(** ** Vocabulary of the theorems *)

(** The world after the collapse block and the clamp of a drag-move on the
    element [e] behind [s]: [d] and [b] are the display and the flag the
    collapse block left, [c] is the candidate width. *)
Definition moved (s : Sibling) (e : Element) (d : Display) (b : bool) (c : Q) (w : World)
  : World :=
  onDom (set_sibling s (Some (set_flexBasis (Some (clampedWidth c w)) (set_display d e))))
        (onThis (set_isPanelCollapsed b) w).

(** Every arrow function registered on [window] has been allocated: the
    invariant that makes a newly made one different from all of them. *)
Definition allocated (w : World) : Prop :=
  forall type id,
    (type, Throttled id) ∈ windowListeners (events w) ->
    (id < length (closures (events w)))%nat.

(** The value of a completion, [d] after an exception. *)
Definition orElse {A} (c : Completion A) (d : A) : A :=
  match c with
  | Normal a => a
  | Throw _ => d
  end.

(** A page whose handle resizes the panel before it, 200 px wide, in a
    window 1000 px wide; and the handle once mounted in a page. *)
Definition demoPage : Dom :=
  page {[ "resize" := "left" ]} (Some (panel 200)) None 1000.

Definition mounted (v : Variant) (d : Dom) : World :=
  orElse (connectedCallbackOf v (construct d)) (construct d).

(** The direction the variant works with in [w]: the [resize] field set at
    mount, or the [resize] attribute as it is now. *)
Definition directionIn (v : Variant) (w : World) : option Direction :=
  match v with
  | AtMount => resize (this w)
  | Live =>
      if ResizeHandlers.equals (getAttribute "resize" w) "left" then Some Left
      else if ResizeHandlers.equals (getAttribute "resize" w) "right" then Some Right
      else None
  end.

(** [w'] is [w] but for the console output and the closures of [throttle]:
    the fields, the attributes, the siblings, the styles, the window width
    and the listeners are the same. *)
Definition untouched (w w' : World) : Prop :=
  this w' = this w /\
  attributes (dom w') = attributes (dom w) /\
  previousElementSibling (dom w') = previousElementSibling (dom w) /\
  nextElementSibling (dom w') = nextElementSibling (dom w) /\
  backgroundColor (dom w') = backgroundColor (dom w) /\
  shadowInnerHTML (dom w') = shadowInnerHTML (dom w) /\
  cursor (dom w') = cursor (dom w) /\
  innerWidth (dom w') = innerWidth (dom w) /\
  handleListeners (events w') = handleListeners (events w) /\
  documentListeners (events w') = documentListeners (events w) /\
  windowListeners (events w') = windowListeners (events w).

(** The document listeners of an open drag session. *)
Definition dragListeners : list Listener :=
  [("mousemove", Bound HandleMouseMove); ("mouseup", Bound HandleMouseUp)].

(** Pointer moves at the given times and positions. *)
Definition moves (l : list (Z * Q)) : list (Z * Event) :=
  map (fun m => (fst m, MouseMove (snd m))) l.

(** The listeners [setupEventListeners] puts on the handle. *)
Definition pressListeners : list Listener :=
  [("mouseenter", Bound HandleMouseEnter); ("mouseleave", Bound HandleMouseLeave);
   ("mousedown", Bound HandleMouseDown)].

(** No drag session is open: nothing of the handle listens on the document.
    The other three conditions say that the listeners and closures are
    those the class itself creates: the handle has its three listeners or
    none, [window] has arrow functions made by [throttle] for its "resize"
    event, and every such function wraps [adjustPanelWidth]. *)
Definition idle (w : World) : Prop :=
  documentListeners (events w) = [] /\
  (handleListeners (events w) = [] \/ handleListeners (events w) = pressListeners) /\
  Forall (fun l => exists id, l = ("resize", Throttled id)) (windowListeners (events w)) /\
  Forall (fun c => func c = AdjustPanelWidth) (closures (events w)).

(** Any event but a press on the handle. *)
Definition noPress (e : Z * Event) : Prop :=
  match snd e with
  | MouseDown _ => False
  | _ => True
  end.

(** A listener that keeps an idle handle idle. *)
Definition harmless (v : Variant) (cb : Callback) : Prop :=
  forall now ev w w',
    idle w -> callListener (invokeOf v) cb now ev w = Normal w' -> idle w'.

(** [value] is what the attribute text [a] gives with default [default]:
    the default when [parseInt a] is NaN or zero, the parsed integer
    otherwise. *)
Definition parsedOr (a : string) (default value : Z) : Prop :=
  (parseInt a = None \/ parseInt a = Some 0 -> value = default) /\
  (forall n, parseInt a = Some n -> n <> 0 -> value = n).

(** Resize events at the given times, each with the new window width. *)
Definition resizes (l : list (Z * Z)) : list (Z * Event) :=
  map (fun m => (fst m, Resize (snd m))) l.

From Stdlib Require Import Lqa.

(** ** utils: html *)

(** The template tag [html(strings, ...values)]: the loop appends
    [strings[i]] and then, when there is one, [values[i]].  A value is
    joined by [+=], that is as its string; it is a string here. *)
Fixpoint html (strings values : list string) : string :=
  match strings with
  | [] => EmptyString
  | s :: strings' =>
      match values with
      | [] => s +:+ html strings' []
      | v :: values' => s +:+ v +:+ html strings' values'
      end
  end.

(** ** Vocabulary of the further properties *)

(** The sibling that is not [s]. *)
Definition other (s : Sibling) : Sibling :=
  match s with
  | Previous => Next
  | Next => Previous
  end.

(** The flag of a closure is set exactly while one timeout is pending. *)
Definition gateOk (c : Closure) : Prop :=
  (inThrottle c = false /\ timeouts c = []) \/
  (inThrottle c = true /\ exists deadline, timeouts c = [deadline]).

(** The listeners and closures are those the class itself creates: the
    handle has its three listeners or none, the document has the two of a
    drag session or none, [window] has allocated arrow functions of
    [throttle] for its "resize" event, and every closure wraps
    [adjustPanelWidth]. *)
Definition wired (w : World) : Prop :=
  (handleListeners (events w) = [] \/ handleListeners (events w) = pressListeners) /\
  (documentListeners (events w) = [] \/ documentListeners (events w) = dragListeners) /\
  Forall (fun l => exists id, l = ("resize", Throttled id) /\
                              (id < length (closures (events w)))%nat)
         (windowListeners (events w)) /\
  Forall (fun c => func c = AdjustPanelWidth) (closures (events w)).

(** The feedback of an open drag: the flag, the hover colour on the handle
    and the resize cursor on the page. *)
Definition highlighted (w : World) : Prop :=
  isDragging (this w) = true /\
  backgroundColor (dom w) = COLOR_HOVER_BG /\
  cursor (dom w) = "col-resize".

(** The configuration of the instance. *)
Definition config (w : World) : Z * Z * Z * option Direction * bool :=
  (minWidth (this w), maxWidthPercent (this w), defaultWidth (this w),
   resize (this w), isCollapsable (this w)).

(** What a bound method leaves alone when the target it resolves is [t]:
    the configuration, the attributes, the window width, the shadow root,
    the listeners of the handle and of [window], the closures, every
    sibling that is not the target, and the layout box of the target. *)
Definition framed (t : option Sibling) (w w' : World) : Prop :=
  config w' = config w /\
  attributes (dom w') = attributes (dom w) /\
  innerWidth (dom w') = innerWidth (dom w) /\
  shadowInnerHTML (dom w') = shadowInnerHTML (dom w) /\
  handleListeners (events w') = handleListeners (events w) /\
  windowListeners (events w') = windowListeners (events w) /\
  closures (events w') = closures (events w) /\
  (forall s, t <> Some s -> sibling s (dom w') = sibling s (dom w)) /\
  (forall s e, t = Some s -> sibling s (dom w) = Some e ->
     exists e', sibling s (dom w') = Some e' /\ rectWidth e' = rectWidth e).

(** [g] applied to the world of a normal completion. *)
Definition mapNormal (g : World -> World) (c : Completion World) : Completion World :=
  match c with
  | Normal w => Normal (g w)
  | Throw e => Throw e
  end.

(** The events a pointer causes. *)
Definition pointerEvent (e : Event) : Prop :=
  match e with
  | MouseEnter | MouseLeave | MouseDown _ | MouseMove _ | MouseUp => True
  | _ => False
  end.

(** The world after a press at [x] on a handle whose target is rendered
    [width] px wide. *)
Definition pressed (x width : Q) (w : World) : World :=
  addDocumentListener "mouseup" (Bound HandleMouseUp)
    (addDocumentListener "mousemove" (Bound HandleMouseMove)
       (onThis (set_currentSiblingWidth width)
          (onThis (set_initialX x)
             (onThis (set_isDragging true)
                (onDom (set_cursor "col-resize") (setBgColor COLOR_HOVER_BG w)))))).

(** The diagnostic of [initializeFromAttributes]. *)
Definition invalidResize : string :=
  "Invalid value for resize attribute. Valid values are 'left' or 'right'.".

(** The direction that makes [s] the target. *)
Definition directionOf (s : Sibling) : Direction :=
  match s with
  | Previous => Left
  | Next => Right
  end.

(** * Theorems *)

(** ** parseInt on sample texts *)

Example parseInt_px : parseInt "200px" = Some 200.
Proof. reflexivity. Qed.

Example parseInt_sign_space : parseInt "  -42.9" = Some (-42).
Proof. reflexivity. Qed.

Example parseInt_hex : parseInt "0x1F" = Some 31 /\ parseInt "0x" = None.
Proof. split; reflexivity. Qed.

Example parseInt_nan :
  parseInt "wide" = None /\ parseInt "" = None /\ parseInt (toString None) = None.
Proof. repeat split. Qed.

(** ** Clamping *)




(** ** Target resolution and the shape of a drag-move *)

Lemma targetOf_sibling v w s :
  targetOf v w = Some s -> exists e, sibling s (dom w) = Some e.
Proof.
  destruct v; cbn.
  - unfold PanelResizeHandler.getTargetElement.
    destruct (resize (this w)) as [[|]|];
      destruct (previousElementSibling (dom w)) eqn:Hp;
      destruct (nextElementSibling (dom w)) eqn:Hn;
      intros [= <-]; cbn; eauto.
  - unfold ResizeHandlers.resolved.
    destruct (ResizeHandlers.equals _ "left"), (ResizeHandlers.equals _ "right");
      destruct (previousElementSibling (dom w)) eqn:Hp;
      destruct (nextElementSibling (dom w)) eqn:Hn;
      cbn; intros [= <-]; cbn; eauto.
Qed.

Lemma move_resolved v x w s :
  isDragging (this w) = true ->
  targetOf v w = Some s ->
  invokeOf v HandleMouseMove x w =
    (w1 ← collapse (Some s) (candidateOf v s x w) w;
     clamp (Some s) (candidateOf v s x w) w1).
Proof.
  intros Hd Ht. destruct v; cbn in *.
  - unfold PanelResizeHandler.handleMouseMove. rewrite Hd, Ht. reflexivity.
  - unfold ResizeHandlers.handleMouseMove. rewrite Hd, Ht. cbn. destruct s; reflexivity.
Qed.

Lemma collapse_clamp s c w e :
  sibling s (dom w) = Some e ->
  exists d b,
    (w1 ← collapse (Some s) c w; clamp (Some s) c w1) = Normal (moved s e d b c w).
Proof.
  intros He. unfold collapse, clamp, writeElement, moved.
  destruct w as [f d l], f, d, e, s; cbn in *; subst;
    repeat match goal with
           | |- context [if ?b then _ else _] => destruct b; cbn
           end;
    eexists _, _; reflexivity.
Qed.

Lemma sibling_set_sibling s v d : sibling s (set_sibling s v d) = v.
Proof. destruct s; reflexivity. Qed.

Lemma gt_true a b : gt a b = true <-> (b < a)%Q.
Proof.
  unfold gt. rewrite negb_true_iff, <- not_true_iff_false, Qle_bool_iff.
  split; [apply Qnot_le_lt | apply Qlt_not_le].
Qed.

Lemma le_true a b : le a b = true <-> (a <= b)%Q.
Proof. apply Qle_bool_iff. Qed.

Lemma adjust_resolved v w s :
  targetOf v w = Some s ->
  invokeOf v AdjustPanelWidth 0%Q w =
    (currentWidth ← readElement (Some s) rectWidth w;
     if gt currentWidth (maxWidthOf w) && gt (maxWidthOf w) (inject_Z (minWidth (this w)))
     then writeElement (Some s) (set_flexBasis (Some (maxWidthOf w))) w
     else Normal w).
Proof.
  intros Ht. destruct v; cbn in *.
  - unfold PanelResizeHandler.adjustPanelWidth. rewrite Ht. reflexivity.
  - unfold ResizeHandlers.adjustPanelWidth. rewrite Ht. reflexivity.
Qed.

(** ** C1: the width after a drag-move or a viewport event *)




Lemma gt_false a b : gt a b = false <-> (a <= b)%Q.
Proof. unfold gt. rewrite negb_false_iff. apply Qle_bool_iff. Qed.

Lemma le_false a b : le a b = false <-> (b < a)%Q.
Proof.
  unfold le. rewrite <- not_true_iff_false, Qle_bool_iff.
  split; [apply Qnot_le_lt | apply Qlt_not_le].
Qed.

(** Turns the tests of the handlers into facts about the order on [Q]. *)
Ltac order_facts :=
  repeat match goal with
         | H : gt _ _ = true |- _ => apply gt_true in H
         | H : gt _ _ = false |- _ => apply gt_false in H
         | H : le _ _ = true |- _ => apply le_true in H
         | H : le _ _ = false |- _ => apply le_false in H
         end.

(** ** C2: the collapse policy *)

(** C2, as stated, fails, in both variants.  With minWidth 150 and the panel
    already collapsed, a move with candidate width 60 re-shows the target
    and clears the flag: the first test hides it (60 <= 150) and the second
    one, which runs next, shows it again (collapsed and 60 > 50). *)
Lemma C2_counterexample :
  let w := dragging 150 30 1000 300 true true in
  (candidateOf AtMount Previous 260 w == 60)%Q /\
  (candidateOf Live Previous 260 w == 60)%Q /\
  isPanelCollapsed (this w) = true /\
  (display <$> previousElementSibling (dom w)) = Some DisplayNone /\
  (exists w' e',
     PanelResizeHandler.handleMouseMove 260 w = Normal w' /\
     previousElementSibling (dom w') = Some e' /\
     display e' = DisplayBlock /\ isPanelCollapsed (this w') = false) /\
  (exists w' e',
     ResizeHandlers.handleMouseMove 260 w = Normal w' /\
     previousElementSibling (dom w') = Some e' /\
     display e' = DisplayBlock /\ isPanelCollapsed (this w') = false).
Proof.
  cbn zeta. repeat split.
  - eexists _, _. split; [vm_compute; reflexivity|]. repeat split.
  - eexists _, _. split; [vm_compute; reflexivity|]. repeat split.
Qed.

(** C2, amended.  In both variants, when collapsible is enabled, a drag-move
    on a resolved target returns normally and, with [c] the candidate width:
    - if [c <= minWidth] and [c <= 50], the target is hidden and the
      collapsed flag is true;
    - if [c > 50] and either [c <= minWidth] or the flag was true, the
      target is shown and the flag is false;
    - otherwise display and flag are as before. *)
Theorem C2_collapse_policy (v : Variant) (w : World) (s : Sibling) (x : Q) :
  isDragging (this w) = true ->
  isCollapsable (this w) = true ->
  targetOf v w = Some s ->
  let c := candidateOf v s x w in
  let min := inject_Z (minWidth (this w)) in
  exists e w' e',
    sibling s (dom w) = Some e /\
    invokeOf v HandleMouseMove x w = Normal w' /\
    sibling s (dom w') = Some e' /\
    ((c <= min)%Q /\ (c <= 50)%Q ->
     display e' = DisplayNone /\ isPanelCollapsed (this w') = true) /\
    ((50 < c)%Q /\ ((c <= min)%Q \/ isPanelCollapsed (this w) = true) ->
     display e' = DisplayBlock /\ isPanelCollapsed (this w') = false) /\
    ((min < c)%Q /\ (isPanelCollapsed (this w) = false \/ (c <= 50)%Q) ->
     display e' = display e /\ isPanelCollapsed (this w') = isPanelCollapsed (this w)).
Proof.
  intros Hd Hc Ht c min. destruct (targetOf_sibling _ _ _ Ht) as [e He].
  exists e. rewrite (move_resolved _ _ _ _ Hd Ht). fold c.
  unfold collapse, clamp, writeElement. rewrite Hc. fold min.
  destruct (le c min) eqn:Hle; destruct (gt c 50) eqn:Hgt;
    destruct (isPanelCollapsed (this w)) eqn:Hcol;
    destruct s; cbn in He |- *; rewrite ?He, ?Hcol; cbn;
    rewrite ?Hgt; cbn; rewrite ?He; cbn;
    eexists _, _; (split; [reflexivity|]); (split; [reflexivity|]);
    (split; [reflexivity|]); order_facts;
    (repeat apply conj; intros;
     first [ solve [split; cbn; congruence]
           | exfalso;
             repeat match goal with
                    | H : _ /\ _ |- _ => destruct H
                    | H : _ \/ _ |- _ => destruct H
                    end; try discriminate; q_order ]).
Qed.

Lemma C2_collapse_policy_witness :
  let w := dragging 150 30 1000 300 true true in
  let c := candidateOf Live Previous 260 w in
  let min := inject_Z (minWidth (this w)) in
  exists e w' e',
    sibling Previous (dom w) = Some e /\
    invokeOf Live HandleMouseMove 260 w = Normal w' /\
    sibling Previous (dom w') = Some e' /\
    ((c <= min)%Q /\ (c <= 50)%Q ->
     display e' = DisplayNone /\ isPanelCollapsed (this w') = true) /\
    ((50 < c)%Q /\ ((c <= min)%Q \/ isPanelCollapsed (this w) = true) ->
     display e' = DisplayBlock /\ isPanelCollapsed (this w') = false) /\
    ((min < c)%Q /\ (isPanelCollapsed (this w) = false \/ (c <= 50)%Q) ->
     display e' = display e /\ isPanelCollapsed (this w') = isPanelCollapsed (this w)).
Proof.
  exact (C2_collapse_policy Live (dragging 150 30 1000 300 true true) Previous 260
           eq_refl eq_refl eq_refl).
Defined.

(** ** Listeners *)

Lemma removeEventListener_absent type cb ls :
  (type, cb) ∉ ls -> removeEventListener type cb ls = ls.
Proof.
  unfold removeEventListener. induction ls as [|l ls IH]; intros Hn; [reflexivity|].
  rewrite filter_cons. apply not_elem_of_cons in Hn as [Hne Hn].
  case_decide as Heq; [|destruct Heq; congruence].
  f_equal. apply IH, Hn.
Qed.

Lemma removeEventListener_gone type cb ls :
  (type, cb) ∉ removeEventListener type cb ls.
Proof.
  unfold removeEventListener. intros Hin.
  apply list_elem_of_filter in Hin as [Hne _]. contradiction.
Qed.

Lemma addEventListener_present type cb ls :
  (type, cb) ∈ addEventListener type cb ls.
Proof.
  unfold addEventListener. destruct (decide _) as [Hin|Hn]; [exact Hin|].
  apply elem_of_app. right. apply list_elem_of_singleton. reflexivity.
Qed.

Lemma writeElement_events ref g w w' :
  writeElement ref g w = Normal w' -> events w' = events w.
Proof.
  unfold writeElement. destruct ref as [s|]; [|discriminate].
  destruct (sibling s (dom w)); [|discriminate]. intros [= <-]. reflexivity.
Qed.

Lemma adjust_events v w w' :
  invokeOf v AdjustPanelWidth 0%Q w = Normal w' -> events w' = events w.
Proof.
  destruct (targetOf v w) as [s|] eqn:Ht.
  - rewrite (adjust_resolved _ _ _ Ht). unfold readElement.
    destruct (sibling s (dom w)) eqn:He; cbn -[writeElement]; [|discriminate].
    destruct (_ && _); [apply writeElement_events | intros [= <-]; reflexivity].
  - destruct v; cbn in *.
    + unfold PanelResizeHandler.adjustPanelWidth. rewrite Ht. intros [= <-]. reflexivity.
    + unfold ResizeHandlers.adjustPanelWidth. rewrite Ht. intros [= <-]. reflexivity.
Qed.

Lemma initializeFromAttributes_events w :
  events (PanelResizeHandler.initializeFromAttributes w) = events w.
Proof.
  unfold PanelResizeHandler.initializeFromAttributes.
  repeat match goal with
         | |- context [if ?b then _ else _] => destruct b
         | |- context [match ?o with Some _ => _ | None => _ end] => destruct o
         end; reflexivity.
Qed.

(** Mounting allocates one closure and registers it, and only it, on
    [window]. *)
Lemma connected_events v w w1 :
  connectedCallbackOf v w = Normal w1 ->
  closures (events w1) =
    closures (events w) ++
      [{| func := AdjustPanelWidth; limit := 100; inThrottle := false; timeouts := [] |}] /\
  windowListeners (events w1) =
    addEventListener "resize" (Throttled (length (closures (events w))))
      (windowListeners (events w)).
Proof.
  destruct v; cbn.
  - unfold PanelResizeHandler.connectedCallback.
    set (w0 := setupEventListeners _).
    assert (Hc0 : closures (events w0) = closures (events w) /\
                  windowListeners (events w0) = windowListeners (events w)).
    { subst w0. cbn -[PanelResizeHandler.initializeFromAttributes].
      rewrite initializeFromAttributes_events. split; reflexivity. }
    destruct (PanelResizeHandler.applyDefaultWidth w0) as [wa|] eqn:Ha; [|discriminate].
    assert (Hea : events wa = events w0).
    { unfold PanelResizeHandler.applyDefaultWidth in Ha.
      destruct (PanelResizeHandler.getTargetElement w0);
        [eapply writeElement_events, Ha | injection Ha as <-; reflexivity]. }
    cbn. destruct (PanelResizeHandler.adjustPanelWidth wa) as [wb|] eqn:Hb; [|discriminate].
    apply (adjust_events AtMount) in Hb. cbn.
    intros [= <-]. cbn. rewrite Hb, Hea. destruct Hc0 as [-> ->]. split; reflexivity.
  - unfold ResizeHandlers.connectedCallback.
    set (w0 := setupEventListeners _).
    destruct (ResizeHandlers.adjustPanelWidth w0) as [wa|] eqn:Ha; [|discriminate].
    apply (adjust_events Live) in Ha. cbn -[writeElement].
    match goal with
    | |- context [mbind _ ?m] => destruct m as [wb|] eqn:Hb; [|discriminate]
    end.
    assert (Heb : events wb = events wa).
    { destruct (ResizeHandlers.resolved _ wa) as [[|]|].
      - destruct (writeElement _ _ wa) as [wc|] eqn:Hc; [|discriminate].
        cbn in Hb. injection Hb as <-. cbn -[writeElement].
        eapply writeElement_events, Hc.
      - eapply writeElement_events, Hb.
      - injection Hb as <-. reflexivity. }
    cbn. intros [= <-]. cbn. rewrite Heb, Ha. split; reflexivity.
Qed.

(** ** C3: the window listener at unmount *)

(** C3 against the code.  In both variants, unmounting a mounted handle
    returns normally and leaves the listeners of [window] exactly as mount
    left them: the arrow function registered at mount is still registered.
    [disconnectedCallback] hands [removeEventListener] a new arrow function,
    which is no registered listener. *)
Theorem C3_window_listener_survives_unmount (v : Variant) (w w1 : World) :
  allocated w ->
  connectedCallbackOf v w = Normal w1 ->
  exists w2,
    disconnectedCallback w1 = Normal w2 /\
    windowListeners (events w2) = windowListeners (events w1) /\
    ("resize", Throttled (length (closures (events w)))) ∈ windowListeners (events w2).
Proof.
  intros Halloc Hc. apply connected_events in Hc as [Hcl Hwl].
  unfold disconnectedCallback, throttle. cbn -[removeEventListener].
  eexists. split; [reflexivity|]. cbn -[removeEventListener].
  assert (Hsame : removeEventListener "resize" (Throttled (length (closures (events w1))))
                    (windowListeners (events w1)) = windowListeners (events w1)).
  { apply removeEventListener_absent. rewrite Hwl, Hcl. unfold addEventListener.
    rewrite length_app. cbn. intros Hin.
    case_decide as Hold.
    - apply Halloc in Hin. lia.
    - apply elem_of_app in Hin as [Hin|Hin].
      + apply Halloc in Hin. lia.
      + apply list_elem_of_singleton in Hin. injection Hin as Heq. lia. }
  rewrite Hsame. split; [reflexivity|].
  rewrite Hwl. apply addEventListener_present.
Qed.

Lemma allocated_construct d : allocated (construct d).
Proof. intros type id Hin. apply elem_of_nil in Hin. destruct Hin. Qed.

Lemma C3_window_listener_survives_unmount_witness :
  exists w2,
    disconnectedCallback (mounted Live demoPage) = Normal w2 /\
    windowListeners (events w2) = windowListeners (events (mounted Live demoPage)) /\
    ("resize", Throttled (length (closures (events (construct demoPage)))))
      ∈ windowListeners (events w2).
Proof.
  apply (C3_window_listener_survives_unmount Live (construct demoPage)).
  - apply allocated_construct.
  - vm_compute. reflexivity.
Defined.

(** The failing input of C3, evaluated: mount, then unmount. *)
Example unmount_leaves_listener :
  (w1 ← connectedCallbackOf AtMount (construct demoPage);
   w2 ← disconnectedCallback w1;
   Normal (windowListeners (events w2), length (closures (events w2)))) =
  Normal ([("resize", Throttled 0)], 2%nat).
Proof. vm_compute. reflexivity. Qed.

(** ** The throttle gate *)

(** A call while the flag is set does nothing at all. *)
Lemma callThrottled_dropped invoke id now ev w c :
  closures (events w) !! id = Some c ->
  inThrottle c = true ->
  callThrottled invoke id now ev w = Normal w.
Proof. intros Hc Hin. unfold callThrottled. rewrite Hc, Hin. reflexivity. Qed.

(** A call while the flag is clear runs [func] in the same call, then sets
    the flag and schedules its reset [limit] ms later. *)
Lemma callThrottled_runs invoke id now ev w c w1 :
  closures (events w) !! id = Some c ->
  inThrottle c = false ->
  invoke (func c) ev w = Normal w1 ->
  exists w2,
    callThrottled invoke id now ev w = Normal w2 /\
    this w2 = this w1 /\ dom w2 = dom w1 /\
    closures (events w2) !! id =
      (fun c' => set_timeouts (timeouts c' ++ [now + limit c']) (set_inThrottle true c'))
        <$> closures (events w1) !! id.
Proof.
  intros Hc Hin Hf. unfold callThrottled. rewrite Hc, Hin, Hf. cbn.
  eexists. split; [reflexivity|]. cbn. repeat split.
  apply list_lookup_alter_eq.
Qed.

(** A timeout does not run before its deadline. *)
Lemma expire_early now c :
  Forall (fun d => now < d) (timeouts c) -> expire now c = c.
Proof.
  intros Hall. unfold expire.
  replace (existsb _ (timeouts c)) with false; [reflexivity|].
  symmetry. apply not_true_iff_false. rewrite existsb_exists.
  intros (d & Hind & Hle). rewrite Forall_forall in Hall.
  apply list_elem_of_In, Hall in Hind. lia.
Qed.

(** Once its deadline has passed the timeout clears the flag, and it calls
    nothing: no call that was dropped is made up for. *)
Lemma expire_due now c d :
  timeouts c = [d] -> d <= now ->
  expire now c = set_timeouts [] (set_inThrottle false c).
Proof.
  intros Ht Hd. unfold expire. rewrite Ht. cbn.
  replace (d <=? now) with true by (symmetry; apply Z.leb_le; exact Hd).
  replace (now <? d) with false by (symmetry; apply Z.ltb_ge; exact Hd).
  reflexivity.
Qed.

Lemma adjust_total v w : exists w', invokeOf v AdjustPanelWidth 0%Q w = Normal w'.
Proof.
  destruct (targetOf v w) as [s|] eqn:Ht.
  - destruct (targetOf_sibling _ _ _ Ht) as [e He].
    rewrite (adjust_resolved _ _ _ Ht). unfold readElement, writeElement.
    rewrite He. cbn. destruct (_ && _); eauto.
  - destruct v; cbn in *.
    + unfold PanelResizeHandler.adjustPanelWidth. rewrite Ht. eauto.
    + unfold ResizeHandlers.adjustPanelWidth. rewrite Ht. eauto.
Qed.

Lemma runTimeouts_lookup now w id :
  closures (events (runTimeouts now w)) !! id = expire now <$> closures (events w) !! id.
Proof. cbn. apply list_lookup_fmap. Qed.

(** A resize event on a window whose only listener is the arrow function
    [id]: the turn of the event loop is the call of that function. *)
Lemma step_resize invoke now vw w id :
  windowListeners (events w) = [("resize", Throttled id)] ->
  step invoke now (Resize vw) w =
    callThrottled invoke id now 0%Q (onDom (set_innerWidth vw) (runTimeouts now w)).
Proof.
  intros Hl. unfold step, deliver. cbn. rewrite Hl. cbn.
  destruct (callThrottled _ _ _ _ _); reflexivity.
Qed.

(** While the flag of the only listener is set and its timeout is not due,
    resize events change neither the fields nor the siblings, and the
    closure stays as it is. *)
Lemma resizes_in_window v id c deadline l : forall w,
  windowListeners (events w) = [("resize", Throttled id)] ->
  closures (events w) !! id = Some c ->
  inThrottle c = true -> timeouts c = [deadline] ->
  Forall (fun m => fst m < deadline) l ->
  exists w',
    run (invokeOf v) (resizes l) w = Normal w' /\
    this w' = this w /\
    previousElementSibling (dom w') = previousElementSibling (dom w) /\
    nextElementSibling (dom w') = nextElementSibling (dom w) /\
    windowListeners (events w') = windowListeners (events w) /\
    closures (events w') !! id = Some c.
Proof.
  induction l as [|[now vw] l IH]; intros w Hl Hc Hin Hto Hall; cbn -[step].
  - exists w. repeat split. exact Hc.
  - apply Forall_cons in Hall as [Hnow Hall]. cbn in Hnow.
    rewrite (step_resize _ _ _ _ _ Hl).
    set (w1 := onDom (set_innerWidth vw) (runTimeouts now w)).
    assert (Hc1 : closures (events w1) !! id = Some c).
    { subst w1. change (events (onDom _ ?x)) with (events x).
      rewrite runTimeouts_lookup, Hc. cbn. f_equal.
      apply expire_early. rewrite Hto. constructor; [exact Hnow | constructor]. }
    rewrite (callThrottled_dropped _ _ _ _ _ _ Hc1 Hin). cbn -[step].
    destruct (IH w1) as (w' & Hrun & Hthis & Hp & Hn & Hw & Hc'); try assumption.
    exists w'. split; [exact Hrun|]. repeat split; assumption.
Qed.

(** ** C4: the throttle gate of the viewport reactor *)

(** C4.  In both variants, take a mounted handle whose throttled listener
    [id] has its flag clear and no timeout pending.  A resize event at time
    [t0] runs [adjustPanelWidth] within the same turn: the fields and the
    page after the turn are those [adjustPanelWidth] leaves.  The flag is
    then set and one timeout is pending, for [t0 + 100].  A second resize
    event at any time [t1] with [t0 <= t1 < t0 + 100] is dropped: it changes
    no field and nothing of the page (the window has its new width, and no
    flex-basis is written), it schedules nothing and queues nothing, since
    the closure is as the first event left it.  The same holds for any
    number of resize events before [t0 + 100]. *)
Theorem C4_throttle_drops_within_window
  (v : Variant) (w : World) (id : nat) (c : Closure) (t0 vw0 : Z) :
  windowListeners (events w) = [("resize", Throttled id)] ->
  closures (events w) !! id = Some c ->
  func c = AdjustPanelWidth -> limit c = 100 ->
  inThrottle c = false -> timeouts c = [] ->
  exists wa w1,
    invokeOf v AdjustPanelWidth 0%Q (onDom (set_innerWidth vw0) (runTimeouts t0 w))
      = Normal wa /\
    step (invokeOf v) t0 (Resize vw0) w = Normal w1 /\
    this w1 = this wa /\ dom w1 = dom wa /\
    windowListeners (events w1) = [("resize", Throttled id)] /\
    closures (events w1) !! id = Some (set_timeouts [t0 + 100] (set_inThrottle true c)) /\
    (forall t1 vw1, t0 <= t1 < t0 + 100 ->
       exists w2,
         step (invokeOf v) t1 (Resize vw1) w1 = Normal w2 /\
         this w2 = this w1 /\ dom w2 = set_innerWidth vw1 (dom w1) /\
         windowListeners (events w2) = windowListeners (events w1) /\
         closures (events w2) !! id = closures (events w1) !! id) /\
    (forall l, Forall (fun m => fst m < t0 + 100) l ->
       exists w2,
         run (invokeOf v) (resizes l) w1 = Normal w2 /\
         this w2 = this w1 /\
         previousElementSibling (dom w2) = previousElementSibling (dom w1) /\
         nextElementSibling (dom w2) = nextElementSibling (dom w1) /\
         closures (events w2) !! id = closures (events w1) !! id).
Proof.
  intros Hl Hc Hf Hlim Hin Hto.
  set (w0 := onDom (set_innerWidth vw0) (runTimeouts t0 w)).
  assert (Hc0 : closures (events w0) !! id = Some c).
  { subst w0. change (events (onDom _ ?x)) with (events x).
    rewrite runTimeouts_lookup, Hc. cbn. f_equal.
    apply expire_early. rewrite Hto. constructor. }
  destruct (adjust_total v w0) as [wa Ha].
  assert (Hf0 : invokeOf v (func c) 0%Q w0 = Normal wa) by (rewrite Hf; exact Ha).
  destruct (callThrottled_runs _ id t0 0%Q w0 c wa Hc0 Hin Hf0)
    as (w1 & Hcall & Hthis & Hdom & Hclo).
  assert (Hev : events wa = events w0) by (eapply adjust_events, Ha).
  assert (Hl1 : windowListeners (events w1) = [("resize", Throttled id)]).
  { unfold callThrottled in Hcall. rewrite Hc0, Hin, Hf0 in Hcall. cbn in Hcall.
    injection Hcall as <-. cbn. rewrite Hev. subst w0. cbn. exact Hl. }
  assert (Hc1 : closures (events w1) !! id
                = Some (set_timeouts [t0 + 100] (set_inThrottle true c))).
  { rewrite Hclo, Hev, Hc0. cbn. rewrite Hto, Hlim. reflexivity. }
  exists wa, w1. split; [exact Ha|].
  split; [rewrite (step_resize _ _ _ _ _ Hl); exact Hcall|].
  split; [exact Hthis|]. split; [exact Hdom|]. split; [exact Hl1|].
  split; [exact Hc1|]. split.
  2:{ intros l Hall.
      destruct (resizes_in_window v id _ (t0 + 100) l w1 Hl1 Hc1 eq_refl eq_refl Hall)
        as (w2 & Hrun & Ht & Hp & Hn & _ & Hc2).
      exists w2. repeat split; try assumption. rewrite Hc1. exact Hc2. }
  intros t1 vw1 Ht1. rewrite (step_resize _ _ _ _ _ Hl1).
  set (w1' := onDom (set_innerWidth vw1) (runTimeouts t1 w1)).
  assert (Hc1' : closures (events w1') !! id
                 = Some (set_timeouts [t0 + 100] (set_inThrottle true c))).
  { subst w1'. change (events (onDom _ ?x)) with (events x).
    rewrite runTimeouts_lookup, Hc1. cbn. f_equal.
    apply expire_early. cbn. constructor; [lia | constructor]. }
  exists w1'. split.
  - eapply callThrottled_dropped; [exact Hc1' | reflexivity].
  - subst w1'. cbn. repeat split. rewrite Hc1. exact Hc1'.
Qed.

Lemma C4_throttle_drops_within_window_witness :
  let w := mounted AtMount demoPage in
  let c := {| func := AdjustPanelWidth; limit := 100; inThrottle := false; timeouts := [] |} in
  exists wa w1,
    invokeOf AtMount AdjustPanelWidth 0%Q (onDom (set_innerWidth 600) (runTimeouts 0 w))
      = Normal wa /\
    step (invokeOf AtMount) 0 (Resize 600) w = Normal w1 /\
    this w1 = this wa /\ dom w1 = dom wa /\
    windowListeners (events w1) = [("resize", Throttled 0%nat)] /\
    closures (events w1) !! 0%nat = Some (set_timeouts [0 + 100] (set_inThrottle true c)) /\
    (forall t1 vw1, 0 <= t1 < 0 + 100 ->
       exists w2,
         step (invokeOf AtMount) t1 (Resize vw1) w1 = Normal w2 /\
         this w2 = this w1 /\ dom w2 = set_innerWidth vw1 (dom w1) /\
         windowListeners (events w2) = windowListeners (events w1) /\
         closures (events w2) !! 0%nat = closures (events w1) !! 0%nat) /\
    (forall l, Forall (fun m => fst m < 0 + 100) l ->
       exists w2,
         run (invokeOf AtMount) (resizes l) w1 = Normal w2 /\
         this w2 = this w1 /\
         previousElementSibling (dom w2) = previousElementSibling (dom w1) /\
         nextElementSibling (dom w2) = nextElementSibling (dom w1) /\
         closures (events w2) !! 0%nat = closures (events w1) !! 0%nat).
Proof.
  cbn zeta.
  apply (C4_throttle_drops_within_window AtMount (mounted AtMount demoPage) 0%nat
           {| func := AdjustPanelWidth; limit := 100; inThrottle := false; timeouts := [] |}
           0 600); reflexivity.
Defined.

(** Three resize events on the mounted sample handle, whose panel is
    rendered 200 px wide: at 0 ms the window shrinks to 600 px and the panel
    is cut to the maximum, 180 px; at 60 ms the window shrinks to 550 px and
    nothing is written, although the maximum is now 165 px; at 100 ms the
    gate is open again. *)
Example two_resizes_one_write :
  exists w2 e2 q2 w3 e3 q3,
    run (invokeOf AtMount) [(0, Resize 600); (60, Resize 550)] (mounted AtMount demoPage)
      = Normal w2 /\
    previousElementSibling (dom w2) = Some e2 /\
    flexBasis e2 = Some q2 /\ (q2 == 180)%Q /\ (maxWidthOf w2 == 165)%Q /\
    step (invokeOf AtMount) 100 (Resize 550) w2 = Normal w3 /\
    previousElementSibling (dom w3) = Some e3 /\
    flexBasis e3 = Some q3 /\ (q3 == 165)%Q.
Proof.
  eexists _, _, _, _, _, _.
  split; [vm_compute; reflexivity|]. split; [reflexivity|].
  split; [reflexivity|]. split; [reflexivity|]. split; [reflexivity|].
  split; [vm_compute; reflexivity|]. split; [reflexivity|].
  split; [reflexivity|]. reflexivity.
Qed.

(** ** C5: the candidate width *)

Lemma equals_left_not_right r :
  ResizeHandlers.equals r "left" = true -> ResizeHandlers.equals r "right" = false.
Proof.
  destruct r as [r|]; cbn; [|discriminate].
  intros H. apply String.eqb_eq in H. subst r. reflexivity.
Qed.

Lemma candidateOf_direction v w s d x :
  targetOf v w = Some s ->
  directionIn v w = Some d ->
  candidateOf v s x w =
    newWidth d (currentSiblingWidth (this w)) (initialX (this w)) x.
Proof.
  destruct v; cbn.
  - unfold PanelResizeHandler.getTargetElement, PanelResizeHandler.candidate.
    intros Ht ->. destruct d; reflexivity.
  - unfold ResizeHandlers.resolved.
    pose proof (equals_left_not_right (getAttribute "resize" w)) as Hlr.
    destruct (ResizeHandlers.equals _ "left"), (ResizeHandlers.equals _ "right");
      try (specialize (Hlr eq_refl); discriminate);
      destruct (previousElementSibling (dom w)), (nextElementSibling (dom w));
      cbn; intros [= <-] [= <-]; reflexivity.
Qed.

(** C5.  In both variants, on a drag-move with a resolved target the
    candidate width is [base + (x - origin)] for direction Left and
    [base - (x - origin)] for direction Right, and the width written is the
    clamp of that candidate.  With base 300 and a pointer 50 px to the left
    of the origin the candidate is 350 for Right and 250 for Left. *)
Theorem C5_candidate_width (v : Variant) (w : World) (s : Sibling) (d : Direction) (x : Q) :
  isDragging (this w) = true ->
  targetOf v w = Some s ->
  directionIn v w = Some d ->
  let base := currentSiblingWidth (this w) in
  let delta := (x - initialX (this w))%Q in
  candidateOf v s x w = match d with
                        | Left => (base + delta)%Q
                        | Right => (base - delta)%Q
                        end /\
  (exists w' e',
     invokeOf v HandleMouseMove x w = Normal w' /\
     sibling s (dom w') = Some e' /\
     flexBasis e' = Some (clampedWidth (candidateOf v s x w) w)) /\
  (forall origin, newWidth Right 300 origin (origin + -50) == 350)%Q /\
  (forall origin, newWidth Left 300 origin (origin + -50) == 250)%Q.
Proof.
  intros Hd Ht Hdir base delta. split; [|split; [|split]].
  - rewrite (candidateOf_direction _ _ _ _ _ Ht Hdir). destruct d; reflexivity.
  - destruct (targetOf_sibling _ _ _ Ht) as [e He].
    rewrite (move_resolved _ _ _ _ Hd Ht).
    destruct (collapse_clamp s (candidateOf v s x w) w e He) as (dsp & b & ->).
    eexists _, _. split; [reflexivity|].
    split; [apply sibling_set_sibling | reflexivity].
  - intros origin. unfold newWidth. ring.
  - intros origin. unfold newWidth. ring.
Qed.

Lemma C5_candidate_width_witness :
  let w := dragging 150 30 2000 300 false false in
  let base := currentSiblingWidth (this w) in
  let delta := (450 - initialX (this w))%Q in
  candidateOf Live Previous 450 w = (base + delta)%Q /\
  (exists w' e',
     invokeOf Live HandleMouseMove 450 w = Normal w' /\
     sibling Previous (dom w') = Some e' /\
     flexBasis e' = Some (clampedWidth (candidateOf Live Previous 450 w) w)) /\
  (forall origin, newWidth Right 300 origin (origin + -50) == 350)%Q /\
  (forall origin, newWidth Left 300 origin (origin + -50) == 250)%Q.
Proof.
  exact (C5_candidate_width Live (dragging 150 30 2000 300 false false) Previous Left 450
           eq_refl eq_refl eq_refl).
Defined.

Example drag_left_of_origin :
  candidateOf AtMount Previous 450 (dragging 150 30 2000 300 false false) = 250%Q /\
  newWidth Right 300 500 450 = 350%Q.
Proof. split; reflexivity. Qed.

(** ** C6: a press with no target *)

(** The variant that reads its attributes at mount returns before it
    touches anything. *)
Lemma press_without_target_at_mount w x :
  targetOf AtMount w = None -> PanelResizeHandler.handleMouseDown x w = Normal w.
Proof.
  cbn. intros Ht. unfold PanelResizeHandler.handleMouseDown. rewrite Ht. reflexivity.
Qed.

(** C6 against the code.  In [resizeHandlers.ts] a press with no target
    element returns normally with [isDragging] set, the origin recorded and
    the move and release listeners registered on the document: the handle
    is Dragging.  The other variant has the guard
    ([press_without_target_at_mount]). *)
Theorem C6_live_press_without_target (w : World) (x : Q) :
  targetOf Live w = None ->
  exists w',
    ResizeHandlers.handleMouseDown x w = Normal w' /\
    isDragging (this w') = true /\ initialX (this w') = x /\
    ("mousemove", Bound HandleMouseMove) ∈ documentListeners (events w') /\
    ("mouseup", Bound HandleMouseUp) ∈ documentListeners (events w').
Proof.
  cbn. intros Ht. unfold ResizeHandlers.handleMouseDown.
  match goal with
  | |- context [ResizeHandlers.resolved ?r ?w0] =>
      change (ResizeHandlers.resolved r w0)
        with (ResizeHandlers.resolved (getAttribute "resize" w) w)
  end.
  rewrite Ht. cbn -[addEventListener]. eexists. split; [reflexivity|].
  cbn -[addEventListener]. split; [reflexivity|]. split; [reflexivity|]. split.
  - unfold addEventListener at 1. case_decide as Hin.
    + apply addEventListener_present.
    + apply elem_of_app. left. apply addEventListener_present.
  - apply addEventListener_present.
Qed.

Lemma C6_live_press_without_target_witness :
  exists w',
    ResizeHandlers.handleMouseDown 500 (mounted Live (page ∅ (Some (panel 200)) None 1000))
      = Normal w' /\
    isDragging (this w') = true /\ initialX (this w') = 500%Q /\
    ("mousemove", Bound HandleMouseMove) ∈ documentListeners (events w') /\
    ("mouseup", Bound HandleMouseUp) ∈ documentListeners (events w').
Proof.
  apply (C6_live_press_without_target (mounted Live (page ∅ (Some (panel 200)) None 1000))).
  reflexivity.
Defined.

(** The failing input of C6 as events: a handle with no [resize] attribute
    is mounted and pressed. *)
Example press_without_resize_attribute :
  let w := mounted Live (page ∅ (Some (panel 200)) None 1000) in
  (w' ← step (invokeOf Live) 0 (MouseDown 500) w;
   Normal (isDragging (this w'), documentListeners (events w'))) =
    Normal (true, dragListeners) /\
  step (invokeOf AtMount) 0 (MouseDown 500) (mounted AtMount (page ∅ (Some (panel 200)) None 1000))
    = Normal (mounted AtMount (page ∅ (Some (panel 200)) None 1000)).
Proof. split; vm_compute; reflexivity. Qed.

(** ** C7: moves after the target is gone *)

Lemma untouched_refl w : untouched w w.
Proof. repeat split. Qed.

Lemma untouched_trans w1 w2 w3 : untouched w1 w2 -> untouched w2 w3 -> untouched w1 w3.
Proof.
  unfold untouched. intros H1 H2.
  repeat match goal with H : _ /\ _ |- _ => destruct H end.
  repeat split; congruence.
Qed.

Lemma untouched_runTimeouts now w : untouched w (runTimeouts now w).
Proof. repeat split. Qed.

Lemma untouched_consoleError msg w : untouched w (consoleError msg w).
Proof. repeat split. Qed.

Lemma untouched_target v w w' : untouched w w' -> targetOf v w' = targetOf v w.
Proof.
  intros (Hthis & Hattr & Hprev & Hnext & _). destruct v; cbn.
  - unfold PanelResizeHandler.getTargetElement. rewrite Hthis, Hprev, Hnext. reflexivity.
  - unfold ResizeHandlers.resolved, getAttribute. rewrite Hattr, Hprev, Hnext. reflexivity.
Qed.

Lemma move_without_target v w x :
  targetOf v w = None ->
  exists w',
    invokeOf v HandleMouseMove x w = Normal w' /\
    (w' = w \/ exists msg, w' = consoleError msg w).
Proof.
  intros Ht. destruct v; cbn in *.
  - unfold PanelResizeHandler.handleMouseMove. rewrite Ht.
    destruct (negb _); eauto.
  - unfold ResizeHandlers.handleMouseMove. rewrite Ht.
    destruct (negb _); eauto.
Qed.

(** Removing the resolved target from the DOM makes the resolution fail. *)
Lemma detach_target v w s :
  targetOf v w = Some s -> targetOf v (onDom (set_sibling s None) w) = None.
Proof.
  destruct v; cbn.
  - unfold PanelResizeHandler.getTargetElement. cbn.
    destruct (resize (this w)) as [[|]|];
      destruct (previousElementSibling (dom w)), (nextElementSibling (dom w));
      intros [= <-]; reflexivity.
  - unfold ResizeHandlers.resolved, getAttribute.
    pose proof (equals_left_not_right (attributes (dom w) !! "resize")) as Hlr.
    destruct s; cbn;
      destruct (ResizeHandlers.equals _ "left"), (ResizeHandlers.equals _ "right");
      try (specialize (Hlr eq_refl); discriminate);
      destruct (previousElementSibling (dom w)), (nextElementSibling (dom w));
      cbn; intros [= ]; reflexivity.
Qed.

Lemma step_move v now x w :
  documentListeners (events w) = dragListeners ->
  step (invokeOf v) now (MouseMove x) w = invokeOf v HandleMouseMove x (runTimeouts now w).
Proof.
  intros Hl. unfold step, deliver. cbn -[invokeOf]. rewrite Hl. cbn -[invokeOf].
  destruct (invokeOf v HandleMouseMove x _); reflexivity.
Qed.

Lemma moves_without_target v l : forall w,
  documentListeners (events w) = dragListeners ->
  targetOf v w = None ->
  exists w', run (invokeOf v) (moves l) w = Normal w' /\ untouched w w'.
Proof.
  induction l as [|[now x] l IH]; intros w Hl Ht; cbn -[step].
  - exists w. split; [reflexivity | apply untouched_refl].
  - rewrite (step_move _ _ _ _ Hl).
    assert (Hu0 : untouched w (runTimeouts now w)) by apply untouched_runTimeouts.
    assert (Ht0 : targetOf v (runTimeouts now w) = None)
      by (rewrite (untouched_target _ _ _ Hu0); exact Ht).
    destruct (move_without_target v _ x Ht0) as (w1 & -> & Hw1). cbn -[step].
    assert (Hu1 : untouched w w1).
    { destruct Hw1 as [->|[msg ->]]; [exact Hu0|].
      eapply untouched_trans; [exact Hu0 | apply untouched_consoleError]. }
    destruct (IH w1) as (w' & Hrun & Hu').
    + destruct Hu1 as (_ & _ & _ & _ & _ & _ & _ & _ & _ & Hdl & _). rewrite Hdl. exact Hl.
    + rewrite (untouched_target _ _ _ Hu1). exact Ht.
    + exists w'. split; [exact Hrun | eapply untouched_trans; eassumption].
Qed.

(** C7.  In both variants, let the target of an open drag session be
    removed from the DOM.  Then the move handler returns normally on every
    pointer position, leaving the world as it is (in [resizeHandlers.ts],
    with one more line on the console); and any sequence of pointer moves
    runs to its end without an exception and leaves the fields, the
    siblings, the styles and the listeners as they were. *)
Theorem C7_move_after_target_removed (v : Variant) (w : World) (s : Sibling) :
  isDragging (this w) = true ->
  documentListeners (events w) = dragListeners ->
  targetOf v w = Some s ->
  let w0 := onDom (set_sibling s None) w in
  targetOf v w0 = None /\
  (forall x, exists w',
     invokeOf v HandleMouseMove x w0 = Normal w' /\
     (w' = w0 \/ exists msg, w' = consoleError msg w0)) /\
  (forall l, exists w',
     run (invokeOf v) (moves l) w0 = Normal w' /\ untouched w0 w').
Proof.
  intros Hd Hl Ht w0. pose proof (detach_target _ _ _ Ht) as Ht0. fold w0 in Ht0.
  split; [exact Ht0|]. split.
  - intros x. apply move_without_target, Ht0.
  - intros l. apply moves_without_target; [exact Hl | exact Ht0].
Qed.

Lemma C7_move_after_target_removed_witness :
  let w := dragging 150 30 1000 300 true false in
  let w0 := onDom (set_sibling Previous None) w in
  targetOf Live w0 = None /\
  (forall x, exists w',
     invokeOf Live HandleMouseMove x w0 = Normal w' /\
     (w' = w0 \/ exists msg, w' = consoleError msg w0)) /\
  (forall l, exists w',
     run (invokeOf Live) (moves l) w0 = Normal w' /\ untouched w0 w').
Proof.
  exact (C7_move_after_target_removed Live (dragging 150 30 1000 300 true false) Previous
           eq_refl eq_refl eq_refl).
Defined.

(** ** C8: a release with no drag session *)

(** With no listener on the document a release reaches no handler. *)
Lemma release_when_idle invoke now w :
  documentListeners (events w) = [] -> deliver invoke now MouseUp w = Normal w.
Proof. intros Hl. unfold deliver. rewrite Hl. reflexivity. Qed.

Lemma idle_events w w' : events w' = events w -> idle w -> idle w'.
Proof. unfold idle. intros ->. tauto. Qed.

Lemma idle_runTimeouts now w : idle w -> idle (runTimeouts now w).
Proof.
  intros (Hd & Hh & Hw & Hc). repeat split; try assumption. cbn.
  apply Forall_fmap. eapply Forall_impl; [exact Hc|].
  intros c Hf. unfold expire. cbn. destruct (existsb _ _); exact Hf.
Qed.

Lemma idle_callThrottled v id now ev w w' :
  idle w -> callThrottled (invokeOf v) id now ev w = Normal w' -> idle w'.
Proof.
  intros Hi. unfold callThrottled. destruct (closures (events w) !! id) as [c|] eqn:Hc;
    [|discriminate].
  destruct (inThrottle c); cbn; [intros [= <-]; exact Hi|].
  assert (Hf : func c = AdjustPanelWidth).
  { destruct Hi as (_ & _ & _ & Hall). rewrite Forall_lookup in Hall. eapply Hall, Hc. }
  rewrite Hf.
  destruct (invokeOf v AdjustPanelWidth ev w) as [w1|] eqn:Ha; [|discriminate].
  assert (He : events w1 = events w).
  { apply (adjust_events v). destruct v; exact Ha. }
  cbn. intros [= <-]. destruct Hi as (Hd & Hh & Hw & Hall).
  repeat split; cbn; rewrite He; try assumption.
  apply Forall_alter; [exact Hall|]. intros c' _ Hc'. exact Hc'.
Qed.

Lemma harmless_throttled v id : harmless v (Throttled id).
Proof. intros now ev w w'. apply idle_callThrottled. Qed.

Lemma harmless_enter v : harmless v (Bound HandleMouseEnter).
Proof.
  intros now ev w w' Hi. destruct v; cbn; intros [= <-]; exact Hi.
Qed.

Lemma harmless_leave v : harmless v (Bound HandleMouseLeave).
Proof.
  intros now ev w w' Hi. destruct v; cbn; unfold handleMouseLeave;
    destruct (negb _); intros [= <-]; exact Hi.
Qed.

Lemma idle_dispatch v type ls now ev : forall w w',
  (forall t cb, (t, cb) ∈ ls -> t = type -> harmless v cb) ->
  idle w -> dispatch (invokeOf v) type ls now ev w = Normal w' -> idle w'.
Proof.
  induction ls as [|[t cb] ls IH]; intros w w' Hh Hi; cbn -[callListener].
  - intros [= <-]. exact Hi.
  - destruct (String.eqb t type) eqn:Ht.
    + destruct (callListener _ cb now ev w) as [w1|] eqn:Hc; [|discriminate].
      cbn -[callListener]. apply IH.
      * intros t' cb' Hin. apply Hh. right. exact Hin.
      * apply String.eqb_eq in Ht. eapply (Hh t cb); [left | exact Ht | exact Hi | exact Hc].
    + apply IH; [|exact Hi]. intros t' cb' Hin. apply Hh. right. exact Hin.
Qed.

Lemma harmless_on_handle v type t cb w :
  idle w -> (t, cb) ∈ handleListeners (events w) -> t = type ->
  type = "mouseenter" \/ type = "mouseleave" -> harmless v cb.
Proof.
  intros (_ & Hh & _) Hin -> Htype. destruct Hh as [Hh|Hh]; rewrite Hh in Hin.
  - apply elem_of_nil in Hin. destruct Hin.
  - unfold pressListeners in Hin.
    repeat (apply elem_of_cons in Hin as [Hin|Hin];
            [injection Hin as -> ->;
             first [apply harmless_enter | apply harmless_leave
                   | destruct Htype; discriminate]|]).
    apply elem_of_nil in Hin. destruct Hin.
Qed.

(** Every event but a press keeps an idle handle idle. *)
Lemma idle_step v now e w w' :
  idle w -> noPress (now, e) -> step (invokeOf v) now e w = Normal w' -> idle w'.
Proof.
  intros Hi Hn. apply (idle_runTimeouts now) in Hi. unfold step.
  set (w0 := runTimeouts now w) in *. clearbody w0. clear w.
  destruct e; cbn -[dispatch]; cbn in Hn.
  - apply idle_dispatch; [|exact Hi]. intros t cb Hin Ht.
    eapply harmless_on_handle; eauto.
  - apply idle_dispatch; [|exact Hi]. intros t cb Hin Ht.
    eapply harmless_on_handle; eauto.
  - destruct Hn.
  - destruct Hi as (Hd & Hrest). rewrite Hd. intros [= <-]. split; assumption.
  - destruct Hi as (Hd & Hrest). rewrite Hd. intros [= <-]. split; assumption.
  - apply idle_dispatch.
    + intros t cb Hin _. destruct Hi as (_ & _ & Hw & _).
      rewrite Forall_forall in Hw. destruct (Hw _ Hin) as [id [= -> ->]].
      apply harmless_throttled.
    + eapply idle_events; [|exact Hi]. reflexivity.
  - intros [= <-]. eapply idle_events; [|exact Hi]. reflexivity.
  - intros [= <-]. eapply idle_events; [|exact Hi]. reflexivity.
Qed.

Lemma idle_run v trace : forall w w',
  idle w -> Forall noPress trace -> run (invokeOf v) trace w = Normal w' -> idle w'.
Proof.
  induction trace as [|[now e] trace IH]; intros w w' Hi Hall; cbn -[step].
  - intros [= <-]. exact Hi.
  - apply Forall_cons in Hall as [Hn Hall].
    destruct (step _ now e w) as [w1|] eqn:Hs; [|discriminate]. cbn -[step].
    apply IH; [|exact Hall]. eapply idle_step; eassumption.
Qed.

(** A handle that has just been mounted is idle. *)
Lemma idle_mounted v d w :
  connectedCallbackOf v (construct d) = Normal w -> idle w.
Proof.
  intros Hc. pose proof (connected_events _ _ _ Hc) as [Hcl Hwl].
  assert (Hrest : documentListeners (events w) = [] /\
                  handleListeners (events w) = pressListeners).
  { destruct v; cbn in Hc.
    - unfold PanelResizeHandler.connectedCallback in Hc.
      set (w0 := setupEventListeners _) in Hc.
      destruct (PanelResizeHandler.applyDefaultWidth w0) as [wa|] eqn:Ha; [|discriminate].
      assert (Hea : events wa = events w0).
      { unfold PanelResizeHandler.applyDefaultWidth in Ha.
        destruct (PanelResizeHandler.getTargetElement w0);
          [eapply writeElement_events, Ha | injection Ha as <-; reflexivity]. }
      cbn in Hc.
      destruct (PanelResizeHandler.adjustPanelWidth wa) as [wb|] eqn:Hb; [|discriminate].
      apply (adjust_events AtMount) in Hb. cbn in Hc. injection Hc as <-. cbn.
      rewrite Hb, Hea. subst w0. cbn -[PanelResizeHandler.initializeFromAttributes].
      rewrite initializeFromAttributes_events. split; reflexivity.
    - unfold ResizeHandlers.connectedCallback in Hc.
      set (w0 := setupEventListeners _) in Hc.
      destruct (ResizeHandlers.adjustPanelWidth w0) as [wa|] eqn:Ha; [|discriminate].
      apply (adjust_events Live) in Ha. cbn -[writeElement] in Hc.
      match type of Hc with
      | context [mbind _ ?m] => destruct m as [wb|] eqn:Hb; [|discriminate]
      end.
      assert (Heb : events wb = events wa).
      { destruct (ResizeHandlers.resolved _ wa) as [[|]|].
        - destruct (writeElement _ _ wa) as [wc|] eqn:Hw; [|discriminate].
          cbn in Hb. injection Hb as <-. cbn -[writeElement].
          eapply writeElement_events, Hw.
        - eapply writeElement_events, Hb.
        - injection Hb as <-. reflexivity. }
      cbn in Hc. injection Hc as <-. cbn. rewrite Heb, Ha. split; reflexivity. }
  destruct Hrest as [Hd Hh]. repeat split.
  - exact Hd.
  - right. exact Hh.
  - rewrite Hwl. cbn. repeat constructor. eexists. reflexivity.
  - rewrite Hcl. cbn. repeat constructor.
Qed.

(** C8.  In both variants, take an idle handle (one just mounted, for
    instance) and let any events reach it except a press on the handle.
    A release then runs no handler: it returns normally and the world is
    exactly what it was, so delivering it again changes nothing either. *)
Theorem C8_release_without_press
  (v : Variant) (w0 w : World) (trace : list (Z * Event)) (now : Z) :
  idle w0 ->
  Forall noPress trace ->
  run (invokeOf v) trace w0 = Normal w ->
  deliver (invokeOf v) now MouseUp w = Normal w /\
  (w1 ← deliver (invokeOf v) now MouseUp w; deliver (invokeOf v) now MouseUp w1) = Normal w /\
  step (invokeOf v) now MouseUp w = Normal (runTimeouts now w).
Proof.
  intros Hi Hall Hrun.
  pose proof (idle_run _ _ _ _ Hi Hall Hrun) as (Hd & _).
  pose proof (release_when_idle (invokeOf v) now w Hd) as Hr.
  split; [exact Hr|]. split.
  - rewrite Hr. cbn -[deliver]. exact Hr.
  - unfold step. apply release_when_idle. exact Hd.
Qed.

Lemma C8_release_without_press_witness :
  let w0 := mounted AtMount demoPage in
  let trace := [(0, MouseEnter); (5, MouseLeave); (10, Resize 600); (20, MouseMove 40)] in
  let w := orElse (run (invokeOf AtMount) trace w0) w0 in
  deliver (invokeOf AtMount) 30 MouseUp w = Normal w /\
  (w1 ← deliver (invokeOf AtMount) 30 MouseUp w; deliver (invokeOf AtMount) 30 MouseUp w1)
    = Normal w /\
  step (invokeOf AtMount) 30 MouseUp w = Normal (runTimeouts 30 w).
Proof.
  cbn zeta.
  apply (C8_release_without_press AtMount (mounted AtMount demoPage) _
           [(0, MouseEnter); (5, MouseLeave); (10, Resize 600); (20, MouseMove 40)] 30).
  - apply (idle_mounted AtMount demoPage). reflexivity.
  - repeat constructor.
  - vm_compute. reflexivity.
Defined.

(** The release after a drag closes the session: the handle is idle again,
    so the theorem above applies from there on. *)
Lemma release_closes_session v now w :
  documentListeners (events w) = dragListeners ->
  exists w',
    deliver (invokeOf v) now MouseUp w = Normal w' /\
    documentListeners (events w') = [] /\ isDragging (this w') = false.
Proof.
  intros Hl. unfold deliver. rewrite Hl.
  destruct v; cbn; (eexists; split; [reflexivity|]); cbn; rewrite Hl; split; reflexivity.
Qed.

(** [handleMouseUp] called directly, with no event: it is idempotent, and
    on a handle at rest (not dragging, transparent, default cursor, no
    document listener) it changes nothing. *)
Lemma handleMouseUp_at_rest w :
  isDragging (this w) = false ->
  backgroundColor (dom w) = COLOR_TRANSPARENT ->
  cursor (dom w) = "default" ->
  documentListeners (events w) = [] ->
  handleMouseUp w = Normal w.
Proof.
  destruct w as [f d l], f, d, l. cbn. intros -> -> -> ->. reflexivity.
Qed.

Lemma handleMouseUp_idempotent w :
  (w1 ← handleMouseUp w; handleMouseUp w1) = handleMouseUp w.
Proof.
  unfold handleMouseUp, removeDocumentListener. cbn -[removeEventListener]. f_equal.
  unfold onEvents, onDom, onThis, setBgColor. cbn -[removeEventListener]. f_equal.
  set (l1 := removeEventListener "mouseup" (Bound HandleMouseUp)
               (removeEventListener "mousemove" (Bound HandleMouseMove)
                  (documentListeners (events w)))).
  assert (Hmm : removeEventListener "mousemove" (Bound HandleMouseMove) l1 = l1).
  { apply removeEventListener_absent. subst l1. intros Hin.
    apply list_elem_of_filter in Hin as [_ Hin].
    revert Hin. apply removeEventListener_gone. }
  assert (Hmu : removeEventListener "mouseup" (Bound HandleMouseUp) l1 = l1).
  { apply removeEventListener_absent. subst l1. apply removeEventListener_gone. }
  rewrite Hmm, Hmu. reflexivity.
Qed.

(** ** C9: the numeric attributes *)

Lemma parsedOr_orNumber a d : parsedOr a d (orNumber (parseInt a) d).
Proof.
  unfold parsedOr, orNumber. split.
  - intros [-> | ->]; reflexivity.
  - intros n -> Hn. apply Z.eqb_neq in Hn. rewrite Hn. reflexivity.
Qed.

(** C9, as stated, fails, in both variants: the text "0" parses, to the
    integer 0, and the default is used all the same. *)
Lemma C9_counterexample :
  let w := construct (page {[ "min-width" := "0" ]} None None 1000) in
  parseInt "0" = Some 0 /\
  minWidth (this (PanelResizeHandler.initializeFromAttributes w)) = 150 /\
  exists w',
    ResizeHandlers.attributeChangedCallback "min-width" None (Some "0") w = Normal w' /\
    minWidth (this w') = 150.
Proof.
  cbn zeta. split; [reflexivity|]. split; [reflexivity|].
  eexists. split; reflexivity.
Qed.

Lemma initialize_minWidth w a :
  getAttribute "min-width" w = Some a ->
  minWidth (this (PanelResizeHandler.initializeFromAttributes w)) = orNumber (parseInt a) 150.
Proof.
  intros Ha. unfold PanelResizeHandler.initializeFromAttributes, hasAttribute.
  rewrite Ha.
  repeat match goal with
         | |- context [if ?b then _ else _] => destruct b
         | |- context [match ?o with Some _ => _ | None => _ end] => destruct o
         end; reflexivity.
Qed.

Lemma initialize_maxWidthPercent w a :
  getAttribute "max-width-percent" w = Some a ->
  maxWidthPercent (this (PanelResizeHandler.initializeFromAttributes w))
    = orNumber (parseInt a) 30.
Proof.
  intros Ha. unfold PanelResizeHandler.initializeFromAttributes, hasAttribute.
  destruct (getAttribute "min-width" w) eqn:Hm;
    change (getAttribute "max-width-percent" (onThis _ w))
      with (getAttribute "max-width-percent" w);
    rewrite Ha;
    repeat match goal with
           | |- context [if ?b then _ else _] => destruct b
           | |- context [match ?o with Some _ => _ | None => _ end] => destruct o
           end; reflexivity.
Qed.

Lemma initialize_defaultWidth w a :
  getAttribute "initial-width" w = Some a ->
  defaultWidth (this (PanelResizeHandler.initializeFromAttributes w))
    = orNumber (parseInt a)
        (minWidth (this (PanelResizeHandler.initializeFromAttributes w))).
Proof.
  intros Ha. unfold PanelResizeHandler.initializeFromAttributes, hasAttribute.
  destruct (getAttribute "min-width" w) eqn:Hm;
    change (getAttribute "max-width-percent" (onThis _ w))
      with (getAttribute "max-width-percent" w);
    destruct (getAttribute "max-width-percent" w) eqn:Hp;
    repeat match goal with
           | |- context [getAttribute "initial-width" (onThis ?g ?w0)] =>
               change (getAttribute "initial-width" (onThis g w0))
                 with (getAttribute "initial-width" w0)
           end;
    rewrite Ha;
    repeat match goal with
           | |- context [if ?b then _ else _] => destruct b
           | |- context [match ?o with Some _ => _ | None => _ end] => destruct o
           end; reflexivity.
Qed.

(** C9, amended.  At mount, for each of min-width, max-width-percent and
    initial-width that is present, the text is parsed as an integer; the
    default (150, 30, and the minWidth just configured) is used when the
    text does not parse or parses to zero, and the parsed integer is the
    configuration value otherwise.  An attribute that is absent leaves the
    field as it was.  In [resizeHandlers.ts] the same holds for min-width
    and max-width-percent on every change of the attribute to a text. *)
Theorem C9_numeric_attributes (w : World) :
  let w' := PanelResizeHandler.initializeFromAttributes w in
  (forall a, getAttribute "min-width" w = Some a ->
     parsedOr a 150 (minWidth (this w'))) /\
  (forall a, getAttribute "max-width-percent" w = Some a ->
     parsedOr a 30 (maxWidthPercent (this w'))) /\
  (forall a, getAttribute "initial-width" w = Some a ->
     parsedOr a (minWidth (this w')) (defaultWidth (this w'))) /\
  (getAttribute "min-width" w = None -> minWidth (this w') = minWidth (this w)) /\
  (getAttribute "max-width-percent" w = None ->
     maxWidthPercent (this w') = maxWidthPercent (this w)) /\
  (getAttribute "initial-width" w = None ->
     defaultWidth (this w') = defaultWidth (this w)) /\
  (forall old a, exists w'',
     ResizeHandlers.attributeChangedCallback "min-width" old (Some a) w = Normal w'' /\
     parsedOr a 150 (minWidth (this w''))) /\
  (forall old a, exists w'',
     ResizeHandlers.attributeChangedCallback "max-width-percent" old (Some a) w = Normal w'' /\
     parsedOr a 30 (maxWidthPercent (this w''))).
Proof.
  cbn zeta. repeat apply conj.
  - intros a Ha. rewrite (initialize_minWidth _ _ Ha). apply parsedOr_orNumber.
  - intros a Ha. rewrite (initialize_maxWidthPercent _ _ Ha). apply parsedOr_orNumber.
  - intros a Ha. rewrite (initialize_defaultWidth _ _ Ha). apply parsedOr_orNumber.
  - intros Ha. unfold PanelResizeHandler.initializeFromAttributes, hasAttribute.
    rewrite Ha.
    repeat match goal with
           | |- context [if ?b then _ else _] => destruct b
           | |- context [match ?o with Some _ => _ | None => _ end] => destruct o
           end; reflexivity.
  - intros Ha. unfold PanelResizeHandler.initializeFromAttributes, hasAttribute.
    destruct (getAttribute "min-width" w) eqn:Hm;
      change (getAttribute "max-width-percent" (onThis _ w))
        with (getAttribute "max-width-percent" w);
      rewrite Ha;
      repeat match goal with
             | |- context [if ?b then _ else _] => destruct b
             | |- context [match ?o with Some _ => _ | None => _ end] => destruct o
             end; reflexivity.
  - intros Ha. unfold PanelResizeHandler.initializeFromAttributes, hasAttribute.
    destruct (getAttribute "min-width" w) eqn:Hm;
      change (getAttribute "max-width-percent" (onThis _ w))
        with (getAttribute "max-width-percent" w);
      destruct (getAttribute "max-width-percent" w) eqn:Hp;
      repeat match goal with
             | |- context [getAttribute "initial-width" (onThis ?g ?w0)] =>
                 change (getAttribute "initial-width" (onThis g w0))
                   with (getAttribute "initial-width" w0)
             end;
      rewrite Ha;
      repeat match goal with
             | |- context [if ?b then _ else _] => destruct b
             | |- context [match ?o with Some _ => _ | None => _ end] => destruct o
             end; reflexivity.
  - intros old a. eexists. split; [reflexivity|]. apply parsedOr_orNumber.
  - intros old a. eexists. split; [reflexivity|]. apply parsedOr_orNumber.
Qed.

(** The three attributes at mount: "200px" parses to 200, "wide" does not
    parse, and "0" parses to zero, which gives way to the minWidth just
    read. *)
Example numeric_attributes_at_mount :
  let attrs : gmap string string :=
    <[ "min-width" := "200px" ]> (<[ "max-width-percent" := "wide" ]>
      (<[ "initial-width" := "0" ]> ∅)) in
  let f := this (PanelResizeHandler.initializeFromAttributes
                   (construct (page attrs None None 1000))) in
  (minWidth f, maxWidthPercent f, defaultWidth f) = (200, 30, 200).
Proof. vm_compute. reflexivity. Qed.

(** ** C10: exceptions leaving the component *)

(** C10 against the code.  In [resizeHandlers.ts], when the observed
    attribute [collapsable] is removed the callback receives [null] as the
    new value and [newValue.toLowerCase()] throws: the exception leaves
    [attributeChangedCallback], on every world, and so does it when the
    browser removes the attribute of a mounted handle. *)
Theorem C10_attribute_removal_throws :
  (forall w old,
     ResizeHandlers.attributeChangedCallback "collapsable" old None w = Throw TypeError) /\
  (forall w, ResizeHandlers.setAttribute "collapsable" None w = Throw TypeError) /\
  ResizeHandlers.setAttribute "collapsable" None
    (mounted Live (page {[ "resize" := "left"; "collapsable" := "true" ]}
                     (Some (panel 200)) None 1000))
    = Throw TypeError.
Proof.
  split; [|split]; try reflexivity.
Qed.

(** The other numeric attributes take [null] without an exception, and the
    variant that reads its attributes at mount has an empty callback. *)
Lemma attribute_removal_elsewhere w old name :
  name <> "collapsable" ->
  (exists w', ResizeHandlers.attributeChangedCallback name old None w = Normal w') /\
  PanelResizeHandler.attributeChangedCallback name old None w = Normal w.
Proof.
  intros Hn. split; [|reflexivity]. unfold ResizeHandlers.attributeChangedCallback.
  repeat match goal with
         | |- context [if String.eqb name ?s then _ else _] =>
             destruct (String.eqb_spec name s); [subst; try contradiction; eauto|]
         end.
  eauto.
Qed.

(** * Further properties of the code *)

(** ** No handler throws *)

Lemma press_total v x w : exists w', invokeOf v HandleMouseDown x w = Normal w'.
Proof.
  destruct (targetOf v w) as [s|] eqn:Ht.
  - destruct (targetOf_sibling _ _ _ Ht) as [e He]. destruct v; cbn in *.
    + unfold PanelResizeHandler.handleMouseDown, readElement. rewrite Ht. cbn.
      destruct s; cbn in He |- *; rewrite He; cbn; eauto.
    + unfold ResizeHandlers.handleMouseDown, readElement.
      change (ResizeHandlers.resolved _ (onThis _ (onThis _ (onDom _ (setBgColor _ w)))))
        with (ResizeHandlers.resolved (getAttribute "resize" w) w).
      rewrite Ht. cbn. destruct s; cbn in He |- *; rewrite He; cbn; eauto.
  - destruct v; cbn in *.
    + unfold PanelResizeHandler.handleMouseDown. rewrite Ht. eauto.
    + unfold ResizeHandlers.handleMouseDown.
      change (ResizeHandlers.resolved _ (onThis _ (onThis _ (onDom _ (setBgColor _ w)))))
        with (ResizeHandlers.resolved (getAttribute "resize" w) w).
      rewrite Ht. cbn. eauto.
Qed.

Lemma move_total v x w : exists w', invokeOf v HandleMouseMove x w = Normal w'.
Proof.
  destruct (targetOf v w) as [s|] eqn:Ht.
  - destruct (isDragging (this w)) eqn:Hd.
    + destruct (targetOf_sibling _ _ _ Ht) as [e He].
      rewrite (move_resolved _ _ _ _ Hd Ht).
      destruct (collapse_clamp s (candidateOf v s x w) w e He) as (d & b & ->). eauto.
    + destruct v; cbn.
      * unfold PanelResizeHandler.handleMouseMove. rewrite Hd. eauto.
      * unfold ResizeHandlers.handleMouseMove. rewrite Hd. eauto.
  - destruct (move_without_target v w x Ht) as (w' & -> & _). eauto.
Qed.

Lemma method_total (v : Variant) (m : Method) (x : Q) (w : World) :
  exists w', invokeOf v m x w = Normal w'.
Proof.
  destruct m.
  - destruct v; cbn; eauto.
  - destruct v; cbn; unfold handleMouseLeave; destruct (negb _); eauto.
  - apply press_total.
  - apply move_total.
  - destruct v; cbn; eauto.
  - destruct (adjust_total v w) as [w' Hw']. exists w'. destruct v; exact Hw'.
Qed.

(** X1: in both variants each of the six bound methods returns normally on
    every world and every pointer position: no property is ever read or
    written through a [null] element. *)
Theorem handlers_never_throw (v : Variant) (m : Method) (x : Q) (w : World) :
  exists w', invokeOf v m x w = Normal w'.
Proof. exact (method_total v m x w). Qed.

Lemma writeElement_total s g w e :
  sibling s (dom w) = Some e ->
  writeElement (Some s) g w = Normal (onDom (set_sibling s (Some (g e))) w).
Proof. intros He. unfold writeElement. rewrite He. reflexivity. Qed.

Lemma lifecycle_total (v : Variant) (w : World) :
  (exists w', connectedCallbackOf v w = Normal w') /\
  (exists w', disconnectedCallback w = Normal w').
Proof.
  split; [|unfold disconnectedCallback; cbn; eauto].
  destruct v; cbn.
  - unfold PanelResizeHandler.connectedCallback.
    set (w0 := setupEventListeners _).
    assert (Ha : exists wa, PanelResizeHandler.applyDefaultWidth w0 = Normal wa).
    { unfold PanelResizeHandler.applyDefaultWidth.
      destruct (PanelResizeHandler.getTargetElement w0) as [s|] eqn:Ht; [|eauto].
      destruct (targetOf_sibling AtMount _ _ Ht) as [e He].
      rewrite (writeElement_total _ _ _ _ He). eauto. }
    destruct Ha as [wa ->]. cbn.
    destruct (adjust_total AtMount wa) as [wb Hb]. cbn in Hb. rewrite Hb. cbn. eauto.
  - unfold ResizeHandlers.connectedCallback.
    set (w0 := setupEventListeners _).
    destruct (adjust_total Live w0) as [wa Ha]. cbn in Ha. rewrite Ha.
    cbn -[writeElement].
    destruct (ResizeHandlers.resolved (getAttribute "resize" wa) wa) as [s|] eqn:Ht.
    + destruct (targetOf_sibling Live _ _ Ht) as [e He].
      destruct s; rewrite (writeElement_total _ _ _ _ He); cbn; eauto.
    + cbn. eauto.
Qed.

(** X2: in both variants [connectedCallback] returns normally on every
    world, with or without a target element, and so does
    [disconnectedCallback]. *)
Theorem lifecycle_never_throws (v : Variant) (w : World) :
  (exists w', connectedCallbackOf v w = Normal w') /\
  (exists w', disconnectedCallback w = Normal w').
Proof. exact (lifecycle_total v w). Qed.

(** ** What the handlers leave alone *)

Lemma framed_refl t w : framed t w w.
Proof. unfold framed. repeat split. intros s e _ He. eauto. Qed.

(** A change of the fields of a drag session, of the two styles, of the
    console or of the document listeners is within the frame. *)
Lemma framed_session t w f d l :
  minWidth f = minWidth (this w) -> maxWidthPercent f = maxWidthPercent (this w) ->
  defaultWidth f = defaultWidth (this w) -> resize f = resize (this w) ->
  isCollapsable f = isCollapsable (this w) ->
  attributes d = attributes (dom w) -> innerWidth d = innerWidth (dom w) ->
  shadowInnerHTML d = shadowInnerHTML (dom w) ->
  previousElementSibling d = previousElementSibling (dom w) ->
  nextElementSibling d = nextElementSibling (dom w) ->
  handleListeners l = handleListeners (events w) ->
  windowListeners l = windowListeners (events w) ->
  closures l = closures (events w) ->
  framed t w {| this := f; dom := d; events := l |}.
Proof.
  intros. unfold framed, config. cbn. repeat split; try congruence.
  - intros s _. destruct s; cbn; assumption.
  - intros s e _ He. exists e. split; [|reflexivity]. destruct s; cbn in *; congruence.
Qed.

(** A write of [display] or [flex-basis] on the target is within the
    frame. *)
Lemma framed_target s e g w f :
  sibling s (dom w) = Some e ->
  rectWidth (g e) = rectWidth e ->
  minWidth f = minWidth (this w) -> maxWidthPercent f = maxWidthPercent (this w) ->
  defaultWidth f = defaultWidth (this w) -> resize f = resize (this w) ->
  isCollapsable f = isCollapsable (this w) ->
  framed (Some s) w
    {| this := f; dom := set_sibling s (Some (g e)) (dom w); events := events w |}.
Proof.
  intros He Hr. intros. unfold framed, config. cbn.
  repeat split; try congruence; try (destruct s; reflexivity).
  - intros s' Hs'. destruct s, s'; try reflexivity; congruence.
  - intros s' e0 [= <-] He0. exists (g e). rewrite sibling_set_sibling.
    split; [reflexivity|]. congruence.
Qed.

Lemma handlers_framed v m x w w' :
  invokeOf v m x w = Normal w' -> framed (targetOf v w) w w'.
Proof.
  destruct m.
  - destruct v; cbn; intros [= <-]; apply framed_session; reflexivity.
  - destruct v; cbn; unfold handleMouseLeave; destruct (negb _); intros [= <-];
      first [apply framed_refl | apply framed_session; reflexivity].
  - destruct (targetOf v w) as [s|] eqn:Ht.
    + destruct (targetOf_sibling _ _ _ Ht) as [e He]. destruct v; cbn in *.
      * unfold PanelResizeHandler.handleMouseDown, readElement. rewrite Ht. cbn.
        destruct s; cbn in He |- *; rewrite He; cbn; intros [= <-];
          apply framed_session; reflexivity.
      * unfold ResizeHandlers.handleMouseDown, readElement.
        change (ResizeHandlers.resolved _ (onThis _ (onThis _ (onDom _ (setBgColor _ w)))))
          with (ResizeHandlers.resolved (getAttribute "resize" w) w).
        rewrite Ht. cbn. destruct s; cbn in He |- *; rewrite He; cbn; intros [= <-];
          apply framed_session; reflexivity.
    + destruct v; cbn in *.
      * unfold PanelResizeHandler.handleMouseDown. rewrite Ht. intros [= <-].
        apply framed_refl.
      * unfold ResizeHandlers.handleMouseDown.
        change (ResizeHandlers.resolved _ (onThis _ (onThis _ (onDom _ (setBgColor _ w)))))
          with (ResizeHandlers.resolved (getAttribute "resize" w) w).
        rewrite Ht. cbn. intros [= <-]. apply framed_session; reflexivity.
  - destruct (targetOf v w) as [s|] eqn:Ht.
    + destruct (isDragging (this w)) eqn:Hd.
      * destruct (targetOf_sibling _ _ _ Ht) as [e He].
        rewrite (move_resolved _ _ _ _ Hd Ht).
        destruct (collapse_clamp s (candidateOf v s x w) w e He) as (d & b & ->).
        intros [= <-].
        apply (framed_target s e
                 (fun e0 => set_flexBasis (Some (clampedWidth (candidateOf v s x w) w))
                              (set_display d e0))
                 w (set_isPanelCollapsed b (this w))); try reflexivity. exact He.
      * destruct v; cbn.
        -- unfold PanelResizeHandler.handleMouseMove. rewrite Hd. intros [= <-].
           apply framed_refl.
        -- unfold ResizeHandlers.handleMouseMove. rewrite Hd. intros [= <-].
           apply framed_refl.
    + destruct (move_without_target v w x Ht) as (w1 & -> & Hw1). intros [= <-].
      destruct Hw1 as [->|[msg ->]]; [apply framed_refl|].
      apply framed_session; reflexivity.
  - destruct v; cbn; intros [= <-]; apply framed_session; reflexivity.
  - intros Ha. assert (Ha0 : invokeOf v AdjustPanelWidth 0%Q w = Normal w')
      by (destruct v; exact Ha). clear Ha.
    destruct (targetOf v w) as [s|] eqn:Ht.
    + destruct (targetOf_sibling _ _ _ Ht) as [e He].
      rewrite (adjust_resolved _ _ _ Ht) in Ha0. unfold readElement in Ha0.
      rewrite He in Ha0. cbn -[writeElement] in Ha0.
      destruct (_ && _) in Ha0.
      * rewrite (writeElement_total _ _ _ _ He) in Ha0. injection Ha0 as <-.
        apply (framed_target s e (set_flexBasis (Some (maxWidthOf w))) w (this w));
          try reflexivity.
        exact He.
      * injection Ha0 as <-. apply framed_refl.
    + destruct v; cbn in *.
      * unfold PanelResizeHandler.adjustPanelWidth in Ha0. rewrite Ht in Ha0.
        injection Ha0 as <-. apply framed_refl.
      * unfold ResizeHandlers.adjustPanelWidth in Ha0. rewrite Ht in Ha0.
        injection Ha0 as <-. apply framed_refl.
Qed.

(** X3: in both variants no bound method changes the configuration
    (minWidth, maxWidthPercent, defaultWidth, resize, isCollapsable), the
    attributes of the handle, the window width or the closures of
    [throttle]: whatever events arrive, the configuration is the one set at
    mount or by an attribute callback. *)
Theorem handlers_keep_configuration (v : Variant) (m : Method) (x : Q) (w : World) :
  exists w',
    invokeOf v m x w = Normal w' /\
    config w' = config w /\
    attributes (dom w') = attributes (dom w) /\
    innerWidth (dom w') = innerWidth (dom w) /\
    closures (events w') = closures (events w).
Proof.
  destruct (method_total v m x w) as [w' Hw']. exists w'.
  destruct (handlers_framed _ _ _ _ _ Hw') as (Hc & Ha & Hi & _ & _ & _ & Hcl & _).
  repeat split; assumption.
Qed.

(** X4: in both variants a bound method writes to no element but the target
    it resolves: every other sibling is left as it is (both siblings when no
    target resolves), and of the target the layout box is left as it is,
    only [display] and [flex-basis] being written. *)
Theorem handlers_write_target_only (v : Variant) (m : Method) (x : Q) (w : World) :
  exists w',
    invokeOf v m x w = Normal w' /\
    (forall s, targetOf v w <> Some s -> sibling s (dom w') = sibling s (dom w)) /\
    (forall s e, targetOf v w = Some s -> sibling s (dom w) = Some e ->
       exists e', sibling s (dom w') = Some e' /\ rectWidth e' = rectWidth e).
Proof.
  destruct (method_total v m x w) as [w' Hw']. exists w'.
  destruct (handlers_framed _ _ _ _ _ Hw') as (_ & _ & _ & _ & _ & _ & _ & Ho & Ht).
  repeat split; assumption.
Qed.

(** ** The variant that reads its attributes at mount ignores them later *)

(** X5: in the variant that reads its attributes at mount, every bound
    method runs the same whatever the attributes have become since: changing
    the attributes and then running the method gives the world of running
    the method and then changing the attributes. *)
Theorem at_mount_handlers_ignore_attributes
  (m : Method) (x : Q) (w : World) (attrs : gmap string string) :
  PanelResizeHandler.invoke m x (onDom (set_attributes attrs) w) =
  mapNormal (onDom (set_attributes attrs)) (PanelResizeHandler.invoke m x w).
Proof.
  destruct w as [f d l], f, d, l.
  destruct m; cbn -[clampedWidth gt le addEventListener removeEventListener];
    unfold handleMouseLeave, PanelResizeHandler.handleMouseDown,
      PanelResizeHandler.handleMouseMove, PanelResizeHandler.adjustPanelWidth,
      PanelResizeHandler.getTargetElement, collapse, clamp, readElement, writeElement,
      clampedWidth, maxWidthOf;
    cbn -[gt le addEventListener removeEventListener Qmax Qmin Qmult Qdiv inject_Z];
    repeat match goal with
           | |- context [match ?o with Some _ => _ | None => _ end] =>
               is_var o; destruct o;
               cbn -[gt le addEventListener removeEventListener Qmax Qmin Qmult Qdiv inject_Z]
           | |- context [match ?o with Left => _ | Right => _ end] =>
               is_var o; destruct o;
               cbn -[gt le addEventListener removeEventListener Qmax Qmin Qmult Qdiv inject_Z]
           | |- context [if ?b then _ else _] =>
               destruct b eqn:?;
               cbn -[gt le addEventListener removeEventListener Qmax Qmin Qmult Qdiv inject_Z]
           end;
    try reflexivity.
Qed.

(** ** The listeners of a drag session *)

Lemma quiet_methods v m x w w' :
  m <> HandleMouseDown -> m <> HandleMouseUp ->
  invokeOf v m x w = Normal w' -> events w' = events w.
Proof.
  intros Hnd Hnu. destruct m; try contradiction.
  - destruct v; cbn; intros [= <-]; reflexivity.
  - destruct v; cbn; unfold handleMouseLeave; destruct (negb _); intros [= <-]; reflexivity.
  - destruct (targetOf v w) as [s|] eqn:Ht.
    + destruct (isDragging (this w)) eqn:Hd.
      * destruct (targetOf_sibling _ _ _ Ht) as [e He].
        rewrite (move_resolved _ _ _ _ Hd Ht).
        destruct (collapse_clamp s (candidateOf v s x w) w e He) as (d & b & ->).
        intros [= <-]. reflexivity.
      * destruct v; cbn.
        -- unfold PanelResizeHandler.handleMouseMove. rewrite Hd. intros [= <-]. reflexivity.
        -- unfold ResizeHandlers.handleMouseMove. rewrite Hd. intros [= <-]. reflexivity.
    + destruct (move_without_target v w x Ht) as (w1 & -> & Hw1). intros [= <-].
      destruct Hw1 as [->|[msg ->]]; reflexivity.
  - intros Ha. apply (adjust_events v). destruct v; exact Ha.
Qed.

Lemma press_document_listeners v x w w' :
  invokeOf v HandleMouseDown x w = Normal w' ->
  documentListeners (events w') = documentListeners (events w) \/
  documentListeners (events w') =
    addEventListener "mouseup" (Bound HandleMouseUp)
      (addEventListener "mousemove" (Bound HandleMouseMove) (documentListeners (events w))).
Proof.
  destruct (targetOf v w) as [s|] eqn:Ht.
  - destruct (targetOf_sibling _ _ _ Ht) as [e He]. destruct v; cbn in *.
    + unfold PanelResizeHandler.handleMouseDown, readElement. rewrite Ht.
      cbn -[addEventListener].
      destruct s; cbn -[addEventListener] in He |- *; rewrite He; cbn -[addEventListener];
        intros [= <-]; right; reflexivity.
    + unfold ResizeHandlers.handleMouseDown, readElement.
      change (ResizeHandlers.resolved _ (onThis _ (onThis _ (onDom _ (setBgColor _ w)))))
        with (ResizeHandlers.resolved (getAttribute "resize" w) w).
      rewrite Ht. cbn -[addEventListener].
      destruct s; cbn -[addEventListener] in He |- *; rewrite He; cbn -[addEventListener];
        intros [= <-]; right; reflexivity.
  - destruct v; cbn in *.
    + unfold PanelResizeHandler.handleMouseDown. rewrite Ht. intros [= <-]. left. reflexivity.
    + unfold ResizeHandlers.handleMouseDown.
      change (ResizeHandlers.resolved _ (onThis _ (onThis _ (onDom _ (setBgColor _ w)))))
        with (ResizeHandlers.resolved (getAttribute "resize" w) w).
      rewrite Ht. cbn -[addEventListener]. intros [= <-]. right. reflexivity.
Qed.

Lemma release_document_listeners v x w w' :
  invokeOf v HandleMouseUp x w = Normal w' ->
  documentListeners (events w') =
    removeEventListener "mouseup" (Bound HandleMouseUp)
      (removeEventListener "mousemove" (Bound HandleMouseMove) (documentListeners (events w))).
Proof. destruct v; cbn -[removeEventListener]; intros [= <-]; reflexivity. Qed.

Lemma session_listeners (v : Variant) (m : Method) (x : Q) (w w' : World) :
  documentListeners (events w) = [] \/ documentListeners (events w) = dragListeners ->
  invokeOf v m x w = Normal w' ->
  (documentListeners (events w') = [] \/ documentListeners (events w') = dragListeners) /\
  (m = HandleMouseUp -> documentListeners (events w') = []) /\
  (m = HandleMouseDown -> documentListeners (events w) = dragListeners ->
   documentListeners (events w') = dragListeners).
Proof.
  intros Hd Hm.
  destruct (decide (m = HandleMouseDown)) as [->|Hnd];
    [|destruct (decide (m = HandleMouseUp)) as [->|Hnu]].
  - apply press_document_listeners in Hm.
    split; [|split; [discriminate|]].
    + destruct Hm as [-> | ->]; [exact Hd|]. right.
      destruct Hd as [-> | ->]; reflexivity.
    + intros _ Hdrag. destruct Hm as [-> | ->]; [exact Hdrag|].
      rewrite Hdrag. reflexivity.
  - apply release_document_listeners in Hm.
    assert (He : documentListeners (events w') = [])
      by (rewrite Hm; destruct Hd as [-> | ->]; reflexivity).
    split; [left; exact He|]. split; [intros _; exact He | discriminate].
  - rewrite (quiet_methods _ _ _ _ _ Hnd Hnu Hm).
    split; [exact Hd|]. split; intros; contradiction.
Qed.

(** X6: in both variants the document carries either no listener of the
    handle or exactly the move and release listeners of one drag session,
    whatever bound method runs: a second press during a drag registers
    nothing twice, and one release removes both. *)
Theorem session_listeners_never_pile_up (v : Variant) (m : Method) (x : Q) (w w' : World) :
  documentListeners (events w) = [] \/ documentListeners (events w) = dragListeners ->
  invokeOf v m x w = Normal w' ->
  (documentListeners (events w') = [] \/ documentListeners (events w') = dragListeners) /\
  (m = HandleMouseUp -> documentListeners (events w') = []) /\
  (m = HandleMouseDown -> documentListeners (events w) = dragListeners ->
   documentListeners (events w') = dragListeners).
Proof. exact (session_listeners v m x w w'). Qed.

Lemma session_listeners_never_pile_up_witness :
  let w := dragging 150 30 1000 300 false false in
  let w' := orElse (invokeOf Live HandleMouseDown 520 w) w in
  (documentListeners (events w') = [] \/ documentListeners (events w') = dragListeners) /\
  (HandleMouseDown = HandleMouseUp -> documentListeners (events w') = []) /\
  (HandleMouseDown = HandleMouseDown -> documentListeners (events w) = dragListeners ->
   documentListeners (events w') = dragListeners).
Proof.
  cbn zeta.
  apply (session_listeners_never_pile_up Live HandleMouseDown 520
           (dragging 150 30 1000 300 false false)).
  - right. reflexivity.
  - vm_compute. reflexivity.
Defined.

(** ** No sequence of events throws *)

Lemma wired_method v m x w :
  wired w ->
  exists w',
    invokeOf v m x w = Normal w' /\ wired w' /\
    length (closures (events w')) = length (closures (events w)).
Proof.
  intros (Hh & Hd & Hw & Hc).
  destruct (method_total v m x w) as [w' Hw']. exists w'.
  split; [exact Hw'|].
  destruct (handlers_framed _ _ _ _ _ Hw') as (_ & _ & _ & _ & Hh' & Hwl' & Hcl' & _).
  destruct (session_listeners _ _ _ _ _ Hd Hw') as (Hd' & _).
  split; [|rewrite Hcl'; reflexivity].
  unfold wired. rewrite Hh', Hwl', Hcl'. repeat split; assumption.
Qed.

Lemma wired_callThrottled v id now ev w :
  wired w -> (id < length (closures (events w)))%nat ->
  exists w',
    callThrottled (invokeOf v) id now ev w = Normal w' /\ wired w' /\
    length (closures (events w')) = length (closures (events w)).
Proof.
  intros Hwd Hid. unfold callThrottled.
  destruct (lookup_lt_is_Some_2 _ _ Hid) as [c Hc]. rewrite Hc.
  destruct (inThrottle c); cbn; [eauto|].
  destruct (wired_method v (func c) ev w Hwd) as (w1 & -> & (Hh & Hd & Hw & Hf) & Hlen).
  cbn. eexists. split; [reflexivity|]. split.
  - unfold wired. cbn. rewrite length_alter. repeat split; try assumption.
    apply Forall_alter; [exact Hf|]. intros c' _ Hc'. exact Hc'.
  - cbn. rewrite length_alter. exact Hlen.
Qed.

Lemma wired_dispatch v type now ev ls : forall w,
  wired w ->
  Forall (fun l => match snd l with
                   | Bound _ => True
                   | Throttled id => (id < length (closures (events w)))%nat
                   end) ls ->
  exists w',
    dispatch (invokeOf v) type ls now ev w = Normal w' /\ wired w' /\
    length (closures (events w')) = length (closures (events w)).
Proof.
  induction ls as [|[t cb] ls IH]; intros w Hwd Hall; cbn -[callListener].
  - eauto.
  - apply Forall_cons in Hall as [Hcb Hall]. cbn in Hcb.
    destruct (String.eqb t type); [|apply IH; assumption].
    assert (Hcall : exists w1, callListener (invokeOf v) cb now ev w = Normal w1 /\
                               wired w1 /\
                               length (closures (events w1)) = length (closures (events w))).
    { destruct cb as [m|id]; cbn -[invokeOf].
      - apply wired_method, Hwd.
      - apply wired_callThrottled; assumption. }
    destruct Hcall as (w1 & -> & Hwd1 & Hlen1). cbn -[callListener].
    destruct (IH w1 Hwd1) as (w' & Hrun & Hwd' & Hlen').
    + rewrite Hlen1. exact Hall.
    + exists w'. split; [exact Hrun|]. split; [exact Hwd'|]. congruence.
Qed.

Lemma all_bound (ls : list Listener) (n : nat) :
  ls = [] \/ ls = pressListeners \/ ls = dragListeners ->
  Forall (fun l => match snd l with
                   | Bound _ => True
                   | Throttled id => (id < n)%nat
                   end) ls.
Proof. intros [-> | [-> | ->]]; repeat constructor. Qed.

Lemma wired_runTimeouts now w : wired w -> wired (runTimeouts now w).
Proof.
  intros (Hh & Hd & Hw & Hc). unfold wired. cbn. rewrite length_fmap.
  repeat split; try assumption.
  apply Forall_fmap. eapply Forall_impl; [exact Hc|].
  intros c Hf. unfold expire. cbn. destruct (existsb _ _); exact Hf.
Qed.

Lemma wired_step v now e w :
  wired w -> exists w', step (invokeOf v) now e w = Normal w' /\ wired w'.
Proof.
  intros Hwd. apply (wired_runTimeouts now) in Hwd. unfold step.
  set (w0 := runTimeouts now w) in *. clearbody w0. clear w.
  pose proof Hwd as (Hh & Hd & Hw & Hc).
  destruct e; cbn -[dispatch].
  - destruct (wired_dispatch v "mouseenter" now 0%Q (handleListeners (events w0)) w0 Hwd)
      as (w' & Hr & Hw' & _); [apply all_bound; tauto | eauto].
  - destruct (wired_dispatch v "mouseleave" now 0%Q (handleListeners (events w0)) w0 Hwd)
      as (w' & Hr & Hw' & _); [apply all_bound; tauto | eauto].
  - destruct (wired_dispatch v "mousedown" now clientX (handleListeners (events w0)) w0 Hwd)
      as (w' & Hr & Hw' & _); [apply all_bound; tauto | eauto].
  - destruct (wired_dispatch v "mousemove" now clientX (documentListeners (events w0)) w0 Hwd)
      as (w' & Hr & Hw' & _); [apply all_bound; tauto | eauto].
  - destruct (wired_dispatch v "mouseup" now 0%Q (documentListeners (events w0)) w0 Hwd)
      as (w' & Hr & Hw' & _); [apply all_bound; tauto | eauto].
  - set (w1 := onDom (set_innerWidth width) w0).
    assert (Hwd1 : wired w1) by exact Hwd.
    destruct (wired_dispatch v "resize" now 0%Q (windowListeners (events w1)) w1 Hwd1)
      as (w' & Hr & Hw' & _); [|eauto].
    eapply Forall_impl; [exact Hw|]. intros l [id [-> Hid]]. exact Hid.
  - eexists. split; [reflexivity | exact Hwd].
  - eexists. split; [reflexivity | exact Hwd].
Qed.

(** A handle that has just been constructed has no listener at all. *)
Lemma wired_construct d : wired (construct d).
Proof. unfold wired. cbn. repeat split; try (left; reflexivity); constructor. Qed.

Lemma run_total v trace : forall w,
  wired w -> exists w', run (invokeOf v) trace w = Normal w' /\ wired w'.
Proof.
  induction trace as [|[now e] trace IH]; intros w Hwd; cbn -[step].
  - eauto.
  - destruct (wired_step v now e w Hwd) as (w1 & -> & Hwd1). cbn -[step].
    apply IH, Hwd1.
Qed.

(** X7: in both variants, on a world whose listeners are those the class
    registers, every sequence of pointer, resize and layout events, with
    siblings removed at will, runs to its end without an exception, and the
    listeners are still those the class registers. *)
Theorem events_never_throw (v : Variant) (trace : list (Z * Event)) (w : World) :
  wired w ->
  exists w', run (invokeOf v) trace w = Normal w' /\ wired w'.
Proof. exact (run_total v trace w). Qed.

Lemma connected_listeners v w w1 :
  connectedCallbackOf v w = Normal w1 ->
  documentListeners (events w1) = documentListeners (events w) /\
  handleListeners (events w1) = handleListeners (events (setupEventListeners w)).
Proof.
  intros Hc. destruct v; cbn in Hc.
  - unfold PanelResizeHandler.connectedCallback in Hc.
    set (w0 := setupEventListeners _) in Hc.
    destruct (PanelResizeHandler.applyDefaultWidth w0) as [wa|] eqn:Ha; [|discriminate].
    assert (Hea : events wa = events w0).
    { unfold PanelResizeHandler.applyDefaultWidth in Ha.
      destruct (PanelResizeHandler.getTargetElement w0);
        [eapply writeElement_events, Ha | injection Ha as <-; reflexivity]. }
    cbn in Hc.
    destruct (PanelResizeHandler.adjustPanelWidth wa) as [wb|] eqn:Hb; [|discriminate].
    apply (adjust_events AtMount) in Hb. cbn in Hc. injection Hc as <-.
    cbn -[addEventListener]. rewrite Hb, Hea. subst w0.
    cbn -[PanelResizeHandler.initializeFromAttributes addEventListener].
    rewrite initializeFromAttributes_events. split; reflexivity.
  - unfold ResizeHandlers.connectedCallback in Hc.
    set (w0 := setupEventListeners _) in Hc.
    destruct (ResizeHandlers.adjustPanelWidth w0) as [wa|] eqn:Ha; [|discriminate].
    apply (adjust_events Live) in Ha. cbn -[writeElement] in Hc.
    match type of Hc with
    | context [mbind _ ?m] => destruct m as [wb|] eqn:Hb; [|discriminate]
    end.
    assert (Heb : events wb = events wa).
    { destruct (ResizeHandlers.resolved _ wa) as [[|]|].
      - destruct (writeElement _ _ wa) as [wc|] eqn:Hw; [|discriminate].
        cbn in Hb. injection Hb as <-. cbn -[writeElement].
        eapply writeElement_events, Hw.
      - eapply writeElement_events, Hb.
      - injection Hb as <-. reflexivity. }
    cbn in Hc. injection Hc as <-. cbn -[addEventListener]. rewrite Heb, Ha.
    split; reflexivity.
Qed.

Lemma fresh_window_listener w :
  Forall (fun l => exists id, l = ("resize", Throttled id) /\
                              (id < length (closures (events w)))%nat)
         (windowListeners (events w)) ->
  addEventListener "resize" (Throttled (length (closures (events w))))
    (windowListeners (events w))
  = windowListeners (events w) ++ [("resize", Throttled (length (closures (events w))))].
Proof.
  intros Hall. unfold addEventListener. case_decide as Hin; [|reflexivity].
  rewrite Forall_forall in Hall. destruct (Hall _ Hin) as (id & [= <-] & Hlt). lia.
Qed.

Lemma mount_listeners (v : Variant) (w : World) :
  wired w ->
  exists w1,
    connectedCallbackOf v w = Normal w1 /\ wired w1 /\
    handleListeners (events w1) = pressListeners /\
    documentListeners (events w1) = documentListeners (events w) /\
    windowListeners (events w1) =
      windowListeners (events w) ++ [("resize", Throttled (length (closures (events w))))].
Proof.
  intros (Hh & Hd & Hw & Hc).
  destruct (lifecycle_total v w) as [[w1 Hw1] _]. exists w1.
  destruct (connected_events _ _ _ Hw1) as [Hcl Hwl].
  destruct (connected_listeners _ _ _ Hw1) as [Hdl Hhl].
  rewrite (fresh_window_listener _ Hw) in Hwl.
  assert (Hpress : handleListeners (events w1) = pressListeners).
  { rewrite Hhl. unfold setupEventListeners, addHandleListener. cbn -[addEventListener].
    destruct Hh as [-> | ->]; reflexivity. }
  split; [exact Hw1|]. split; [|split; [exact Hpress|split; [exact Hdl | exact Hwl]]].
  unfold wired. rewrite Hpress, Hdl, Hwl, Hcl. repeat split; try assumption.
  - right. reflexivity.
  - apply Forall_app. split.
    + eapply Forall_impl; [exact Hw|]. intros l (id & -> & Hid).
      exists id. split; [reflexivity|]. rewrite length_app. cbn. lia.
    + repeat constructor. eexists. split; [reflexivity|]. rewrite length_app. cbn. lia.
  - apply Forall_app. split; [exact Hc | repeat constructor].
Qed.

(** X8: in both variants mounting a handle puts exactly the three listeners
    on the handle, also when they are there already (a second mount adds no
    duplicate), touches no document listener, and adds one new arrow
    function to the "resize" listeners of [window] on every mount. *)
Theorem mount_registers_listeners (v : Variant) (w : World) :
  wired w ->
  exists w1,
    connectedCallbackOf v w = Normal w1 /\ wired w1 /\
    handleListeners (events w1) = pressListeners /\
    documentListeners (events w1) = documentListeners (events w) /\
    windowListeners (events w1) =
      windowListeners (events w) ++ [("resize", Throttled (length (closures (events w))))].
Proof. exact (mount_listeners v w). Qed.

Lemma wired_mounted v d : wired (mounted v d).
Proof.
  unfold mounted.
  destruct (mount_listeners v (construct d) (wired_construct d))
    as (w1 & -> & Hw1 & _). exact Hw1.
Qed.

Lemma mount_registers_listeners_witness :
  exists w1,
    connectedCallbackOf Live (mounted Live demoPage) = Normal w1 /\ wired w1 /\
    handleListeners (events w1) = pressListeners /\
    documentListeners (events w1) = documentListeners (events (mounted Live demoPage)) /\
    windowListeners (events w1) =
      windowListeners (events (mounted Live demoPage)) ++
        [("resize", Throttled (length (closures (events (mounted Live demoPage)))))].
Proof.
  apply (mount_registers_listeners Live (mounted Live demoPage)).
  apply wired_mounted.
Defined.

(** X9: unmounting removes the three listeners of the handle and closes an
    open drag session: no listener of the instance is left on the handle or
    on the document, so every pointer event delivered after the unmount
    leaves the world as it is. *)
Theorem unmount_detaches_pointer_listeners (v : Variant) (w : World) :
  wired w ->
  exists w2,
    disconnectedCallback w = Normal w2 /\
    handleListeners (events w2) = [] /\
    documentListeners (events w2) = [] /\
    forall now e, pointerEvent e -> deliver (invokeOf v) now e w2 = Normal w2.
Proof.
  intros (Hh & Hd & _). unfold disconnectedCallback, throttle. cbn -[removeEventListeners].
  eexists. split; [reflexivity|].
  match goal with |- handleListeners (events ?x) = _ /\ _ => set (w2 := x) end.
  assert (Hh2 : handleListeners (events w2) = [])
    by (subst w2; cbn; destruct Hh as [-> | ->]; reflexivity).
  assert (Hd2 : documentListeners (events w2) = [])
    by (subst w2; cbn; destruct Hd as [-> | ->]; reflexivity).
  split; [exact Hh2|]. split; [exact Hd2|].
  intros now e He. unfold deliver.
  destruct e; try destruct He; rewrite ?Hh2, ?Hd2; reflexivity.
Qed.

Lemma unmount_detaches_pointer_listeners_witness :
  exists w2,
    disconnectedCallback (dragging 150 30 1000 300 false false) = Normal w2 /\
    handleListeners (events w2) = [] /\
    documentListeners (events w2) = [] /\
    forall now e, pointerEvent e -> deliver (invokeOf Live) now e w2 = Normal w2.
Proof.
  apply (unmount_detaches_pointer_listeners Live (dragging 150 30 1000 300 false false)).
  unfold wired. cbn. repeat split; try (right; reflexivity); repeat constructor.
  eexists. split; [reflexivity | cbn; lia].
Defined.

Lemma events_never_throw_witness :
  exists w',
    run (invokeOf AtMount)
      [(0, MouseEnter); (10, MouseDown 500); (20, MouseMove 470); (25, Detach Previous);
       (30, MouseMove 400); (40, Resize 600); (50, MouseUp); (60, MouseLeave)]
      (mounted AtMount demoPage) = Normal w' /\
    wired w'.
Proof.
  apply (events_never_throw AtMount
           [(0, MouseEnter); (10, MouseDown 500); (20, MouseMove 470); (25, Detach Previous);
            (30, MouseMove 400); (40, Resize 600); (50, MouseUp); (60, MouseLeave)]
           (mounted AtMount demoPage)).
  apply wired_mounted.
Defined.

(** ** The throttle gate over time *)

Lemma gateOk_fresh m lim :
  gateOk {| func := m; limit := lim; inThrottle := false; timeouts := [] |}.
Proof. left. split; reflexivity. Qed.

Lemma gateOk_expire now c : gateOk c -> gateOk (expire now c).
Proof.
  intros [[Hin Hto] | [Hin [d Hto]]]; unfold expire; rewrite Hto; cbn.
  - left. split; assumption.
  - destruct (d <=? now) eqn:Hd; cbn.
    + left. split; [reflexivity|].
      apply Z.leb_le in Hd. replace (now <? d) with false; [reflexivity|].
      symmetry. apply Z.ltb_ge. exact Hd.
    + right. split; [exact Hin | eauto].
Qed.

Lemma gateOk_callListener v cb now ev w w' :
  Forall gateOk (closures (events w)) ->
  callListener (invokeOf v) cb now ev w = Normal w' ->
  Forall gateOk (closures (events w')).
Proof.
  intros Hall. destruct cb as [m|id]; cbn -[invokeOf].
  - intros Hm. destruct (handlers_framed _ _ _ _ _ Hm) as (_ & _ & _ & _ & _ & _ & -> & _).
    exact Hall.
  - unfold callThrottled.
    destruct (closures (events w) !! id) as [c|] eqn:Hc; [|discriminate].
    destruct (inThrottle c) eqn:Hin; cbn -[invokeOf]; [intros [= <-]; exact Hall|].
    destruct (invokeOf v (func c) ev w) as [w1|] eqn:Hm; [|discriminate].
    destruct (handlers_framed _ _ _ _ _ Hm) as (_ & _ & _ & _ & _ & _ & Hcl & _).
    cbn. intros [= <-]. cbn. rewrite Hcl.
    apply Forall_alter; [exact Hall|].
    intros c' Hc' Hok. rewrite Hc in Hc'. injection Hc' as <-.
    destruct Hok as [[_ Hto] | [Hin' _]]; [|congruence].
    right. split; [reflexivity|]. rewrite Hto. cbn. eauto.
Qed.

Lemma gateOk_dispatch v type now ev ls : forall w w',
  Forall gateOk (closures (events w)) ->
  dispatch (invokeOf v) type ls now ev w = Normal w' ->
  Forall gateOk (closures (events w')).
Proof.
  induction ls as [|[t cb] ls IH]; intros w w' Hall; cbn -[callListener].
  - intros [= <-]. exact Hall.
  - destruct (String.eqb t type); [|apply IH; exact Hall].
    destruct (callListener _ cb now ev w) as [w1|] eqn:Hc; [|discriminate].
    cbn -[callListener]. apply IH. eapply gateOk_callListener; eassumption.
Qed.

Lemma gateOk_step v now e w w' :
  Forall gateOk (closures (events w)) ->
  step (invokeOf v) now e w = Normal w' ->
  Forall gateOk (closures (events w')).
Proof.
  intros Hall. unfold step.
  assert (H0 : Forall gateOk (closures (events (runTimeouts now w)))).
  { cbn. apply Forall_fmap. eapply Forall_impl; [exact Hall|].
    intros c. apply gateOk_expire. }
  set (w0 := runTimeouts now w) in *. clearbody w0.
  destruct e; cbn -[dispatch];
    try (apply gateOk_dispatch; exact H0);
    intros [= <-]; exact H0.
Qed.

Lemma gateOk_run v trace : forall w w',
  Forall gateOk (closures (events w)) ->
  run (invokeOf v) trace w = Normal w' ->
  Forall gateOk (closures (events w')).
Proof.
  induction trace as [|[now e] trace IH]; intros w w' Hall; cbn -[step].
  - intros [= <-]. exact Hall.
  - destruct (step _ now e w) as [w1|] eqn:Hs; [|discriminate]. cbn -[step].
    apply IH. eapply gateOk_step; eassumption.
Qed.

(** X10: each arrow function made by [throttle] has its flag set exactly
    while one timeout is pending, and never more than one timeout: this
    holds when the function is made and after every sequence of events, so
    the timeouts of a closure never pile up. *)
Theorem throttle_one_pending_timeout (v : Variant) (trace : list (Z * Event)) (w : World) :
  wired w ->
  Forall gateOk (closures (events w)) ->
  exists w',
    run (invokeOf v) trace w = Normal w' /\
    Forall gateOk (closures (events w')) /\
    forall m lim, Forall gateOk (closures (events (snd (throttle m lim w')))).
Proof.
  intros Hwd Hall. destruct (run_total v trace w Hwd) as (w' & Hrun & _).
  exists w'. split; [exact Hrun|].
  pose proof (gateOk_run _ _ _ _ Hall Hrun) as Hall'.
  split; [exact Hall'|].
  intros m lim. cbn. apply Forall_app. split; [exact Hall'|].
  constructor; [apply gateOk_fresh | constructor].
Qed.

Lemma throttle_one_pending_timeout_witness :
  exists w',
    run (invokeOf Live) [(0, Resize 600); (60, Resize 550); (100, Resize 500); (230, MouseEnter)]
      (mounted Live demoPage) = Normal w' /\
    Forall gateOk (closures (events w')) /\
    forall m lim, Forall gateOk (closures (events (snd (throttle m lim w')))).
Proof.
  apply (throttle_one_pending_timeout Live
           [(0, Resize 600); (60, Resize 550); (100, Resize 500); (230, MouseEnter)]
           (mounted Live demoPage)).
  - apply wired_mounted.
  - constructor; [apply gateOk_fresh | constructor].
Defined.

(** X11: the gate opens again.  In both variants, when the flag of the only
    resize listener is set and its timeout is due at [deadline], a turn of
    the event loop at a time [t1 >= deadline] runs the timeout first, which
    clears the flag and calls nothing; the resize event of that turn then
    runs [adjustPanelWidth] (the fields and the page after the turn are
    those it leaves), sets the flag again and schedules the next reset for
    [t1 + limit]. *)
Theorem throttle_reopens_after_window
  (v : Variant) (w : World) (id : nat) (c : Closure) (deadline t1 vw : Z) :
  windowListeners (events w) = [("resize", Throttled id)] ->
  closures (events w) !! id = Some c ->
  func c = AdjustPanelWidth ->
  inThrottle c = true -> timeouts c = [deadline] ->
  deadline <= t1 ->
  exists wa w1,
    invokeOf v AdjustPanelWidth 0%Q (onDom (set_innerWidth vw) (runTimeouts t1 w))
      = Normal wa /\
    step (invokeOf v) t1 (Resize vw) w = Normal w1 /\
    this w1 = this wa /\ dom w1 = dom wa /\
    closures (events w1) !! id =
      Some (set_timeouts [t1 + limit c] (set_inThrottle true c)).
Proof.
  intros Hl Hc Hf Hin Hto Hd.
  set (w0 := onDom (set_innerWidth vw) (runTimeouts t1 w)).
  set (c0 := set_timeouts [] (set_inThrottle false c)).
  assert (Hc0 : closures (events w0) !! id = Some c0).
  { subst w0. change (events (onDom _ ?x)) with (events x).
    rewrite runTimeouts_lookup, Hc. cbn. f_equal. apply (expire_due _ _ deadline); assumption. }
  destruct (adjust_total v w0) as [wa Ha].
  assert (Hf0 : invokeOf v (func c0) 0%Q w0 = Normal wa) by (cbn; rewrite Hf; exact Ha).
  destruct (callThrottled_runs _ id t1 0%Q w0 c0 wa Hc0 eq_refl Hf0)
    as (w1 & Hcall & Hthis & Hdom & Hclo).
  assert (Hev : events wa = events w0) by (eapply adjust_events, Ha).
  exists wa, w1. split; [exact Ha|].
  split; [rewrite (step_resize _ _ _ _ _ Hl); exact Hcall|].
  split; [exact Hthis|]. split; [exact Hdom|].
  rewrite Hclo, Hev, Hc0. reflexivity.
Qed.

Lemma throttle_reopens_after_window_witness :
  let w := orElse (step (invokeOf AtMount) 0 (Resize 600) (mounted AtMount demoPage))
             (mounted AtMount demoPage) in
  let c := {| func := AdjustPanelWidth; limit := 100; inThrottle := true; timeouts := [100] |} in
  exists wa w1,
    invokeOf AtMount AdjustPanelWidth 0%Q (onDom (set_innerWidth 550) (runTimeouts 100 w))
      = Normal wa /\
    step (invokeOf AtMount) 100 (Resize 550) w = Normal w1 /\
    this w1 = this wa /\ dom w1 = dom wa /\
    closures (events w1) !! 0%nat =
      Some (set_timeouts [100 + limit c] (set_inThrottle true c)).
Proof.
  cbn zeta.
  apply (throttle_reopens_after_window AtMount _ 0%nat
           {| func := AdjustPanelWidth; limit := 100; inThrottle := true; timeouts := [100] |}
           100 100 550); reflexivity.
Defined.

(** ** Hover feedback during a drag *)

Lemma highlighted_sibling s o w :
  highlighted w -> highlighted (onDom (set_sibling s o) w).
Proof. intros H. destruct s; exact H. Qed.

(** X12: in both variants, while a drag is open and highlighted (flag set,
    hover colour on the handle, resize cursor on the page), every bound
    method except the release handler keeps it so: a pointer that leaves
    the handle, a move, a resize of the window or a second press does not
    clear the highlight.  The release handler clears all three. *)
Theorem drag_highlight_persists (v : Variant) (m : Method) (x : Q) (w : World) :
  highlighted w ->
  exists w',
    invokeOf v m x w = Normal w' /\
    (m <> HandleMouseUp -> highlighted w') /\
    (m = HandleMouseUp ->
     isDragging (this w') = false /\
     backgroundColor (dom w') = COLOR_TRANSPARENT /\ cursor (dom w') = "default").
Proof.
  intros Hh. pose proof Hh as (Hd & Hb & Hc). destruct m.
  - destruct v; cbn; (eexists; split; [reflexivity|]); (split; [|discriminate]);
      intros _; repeat split; exact Hd.
  - destruct v; cbn; unfold handleMouseLeave; rewrite Hd; cbn;
      (eexists; split; [reflexivity|]); (split; [|discriminate]); intros _; exact Hh.
  - destruct (targetOf v w) as [s|] eqn:Ht.
    + destruct (targetOf_sibling _ _ _ Ht) as [e He]. destruct v; cbn in *.
      * unfold PanelResizeHandler.handleMouseDown, readElement. rewrite Ht. cbn.
        destruct s; cbn in He |- *; rewrite He; cbn;
          (eexists; split; [reflexivity|]); (split; [|discriminate]);
          intros _; repeat split.
      * unfold ResizeHandlers.handleMouseDown, readElement.
        change (ResizeHandlers.resolved _ (onThis _ (onThis _ (onDom _ (setBgColor _ w)))))
          with (ResizeHandlers.resolved (getAttribute "resize" w) w).
        rewrite Ht. cbn. destruct s; cbn in He |- *; rewrite He; cbn;
          (eexists; split; [reflexivity|]); (split; [|discriminate]);
          intros _; repeat split.
    + destruct v; cbn in *.
      * unfold PanelResizeHandler.handleMouseDown. rewrite Ht.
        (eexists; split; [reflexivity|]); (split; [|discriminate]). intros _. exact Hh.
      * unfold ResizeHandlers.handleMouseDown.
        change (ResizeHandlers.resolved _ (onThis _ (onThis _ (onDom _ (setBgColor _ w)))))
          with (ResizeHandlers.resolved (getAttribute "resize" w) w).
        rewrite Ht. cbn. (eexists; split; [reflexivity|]); (split; [|discriminate]).
        intros _. repeat split.
  - destruct (targetOf v w) as [s|] eqn:Ht.
    + destruct (targetOf_sibling _ _ _ Ht) as [e He].
      rewrite (move_resolved _ _ _ _ Hd Ht).
      destruct (collapse_clamp s (candidateOf v s x w) w e He) as (d & b & ->).
      (eexists; split; [reflexivity|]); (split; [|discriminate]). intros _.
      unfold moved. apply highlighted_sibling. exact Hh.
    + destruct (move_without_target v w x Ht) as (w1 & -> & Hw1).
      (eexists; split; [reflexivity|]); (split; [|discriminate]). intros _.
      destruct Hw1 as [->|[msg ->]]; exact Hh.
  - destruct v; cbn; (eexists; split; [reflexivity|]);
      (split; [intros Hn; contradiction|]); intros _; repeat split.
  - destruct (adjust_total v w) as [w' Ha]. exists w'.
    split; [destruct v; exact Ha|]. split; [|discriminate]. intros _.
    destruct (targetOf v w) as [s|] eqn:Ht.
    + destruct (targetOf_sibling _ _ _ Ht) as [e He].
      rewrite (adjust_resolved _ _ _ Ht) in Ha. unfold readElement in Ha.
      rewrite He in Ha. cbn -[writeElement] in Ha. destruct (_ && _) in Ha.
      * rewrite (writeElement_total _ _ _ _ He) in Ha. injection Ha as <-.
        apply highlighted_sibling. exact Hh.
      * injection Ha as <-. exact Hh.
    + destruct v; cbn in *.
      * unfold PanelResizeHandler.adjustPanelWidth in Ha. rewrite Ht in Ha.
        injection Ha as <-. exact Hh.
      * unfold ResizeHandlers.adjustPanelWidth in Ha. rewrite Ht in Ha.
        injection Ha as <-. exact Hh.
Qed.

Lemma drag_highlight_persists_witness :
  let w := orElse (invokeOf AtMount HandleMouseDown 500 (mounted AtMount demoPage))
             (mounted AtMount demoPage) in
  exists w',
    invokeOf AtMount HandleMouseLeave 0 w = Normal w' /\
    (HandleMouseLeave <> HandleMouseUp -> highlighted w') /\
    (HandleMouseLeave = HandleMouseUp ->
     isDragging (this w') = false /\
     backgroundColor (dom w') = COLOR_TRANSPARENT /\ cursor (dom w') = "default").
Proof.
  cbn zeta.
  apply (drag_highlight_persists AtMount HandleMouseLeave 0).
  repeat split.
Defined.

(** ** A drag from press to move *)

Lemma press_resolved v x0 w s e :
  targetOf v w = Some s -> sibling s (dom w) = Some e ->
  invokeOf v HandleMouseDown x0 w = Normal (pressed x0 (rectWidth e) w).
Proof.
  intros Ht He. destruct v; cbn in *.
  - unfold PanelResizeHandler.handleMouseDown, readElement. rewrite Ht. cbn.
    destruct s; cbn in He |- *; rewrite He; reflexivity.
  - unfold ResizeHandlers.handleMouseDown, readElement.
    change (ResizeHandlers.resolved _ (onThis _ (onThis _ (onDom _ (setBgColor _ w)))))
      with (ResizeHandlers.resolved (getAttribute "resize" w) w).
    rewrite Ht. cbn. destruct s; cbn in He |- *; rewrite He; reflexivity.
Qed.


Lemma clampedWidth_monotone c1 c2 w :
  (c1 <= c2)%Q -> (clampedWidth c1 w <= clampedWidth c2 w)%Q.
Proof.
  intros Hc. unfold clampedWidth.
  apply Q.max_le_compat_l, Q.min_le_compat_r, Hc.
Qed.




Lemma move_writes v w s x :
  isDragging (this w) = true -> targetOf v w = Some s ->
  exists w' e',
    invokeOf v HandleMouseMove x w = Normal w' /\
    sibling s (dom w') = Some e' /\
    flexBasis e' = Some (clampedWidth (candidateOf v s x w) w).
Proof.
  intros Hd Ht. destruct (targetOf_sibling _ _ _ Ht) as [e He].
  rewrite (move_resolved _ _ _ _ Hd Ht).
  destruct (collapse_clamp s (candidateOf v s x w) w e He) as (dsp & b & ->).
  eexists _, _. split; [reflexivity|]. split; [apply sibling_set_sibling | reflexivity].
Qed.

(** X14: the written width follows the pointer monotonically.  In both
    variants, from one state of a drag session, of two pointer positions
    [x1 <= x2] the move to the one further right writes the larger or equal
    width for direction Left, and the smaller or equal width for direction
    Right. *)
Theorem drag_width_monotone
  (v : Variant) (w : World) (s : Sibling) (d : Direction) (x1 x2 : Q) :
  isDragging (this w) = true ->
  targetOf v w = Some s ->
  directionIn v w = Some d ->
  (x1 <= x2)%Q ->
  exists w1 e1 q1 w2 e2 q2,
    invokeOf v HandleMouseMove x1 w = Normal w1 /\
    sibling s (dom w1) = Some e1 /\ flexBasis e1 = Some q1 /\
    invokeOf v HandleMouseMove x2 w = Normal w2 /\
    sibling s (dom w2) = Some e2 /\ flexBasis e2 = Some q2 /\
    match d with
    | Left => (q1 <= q2)%Q
    | Right => (q2 <= q1)%Q
    end.
Proof.
  intros Hd Ht Hdir Hx.
  destruct (move_writes v w s x1 Hd Ht) as (w1 & e1 & Hm1 & He1 & Hq1).
  destruct (move_writes v w s x2 Hd Ht) as (w2 & e2 & Hm2 & He2 & Hq2).
  exists w1, e1, (clampedWidth (candidateOf v s x1 w) w),
    w2, e2, (clampedWidth (candidateOf v s x2 w) w).
  repeat (split; [assumption|]).
  rewrite !(candidateOf_direction _ _ _ _ _ Ht Hdir).
  destruct d; apply clampedWidth_monotone; unfold newWidth; lra.
Qed.

Lemma drag_width_monotone_witness :
  let w := dragging 150 30 2000 300 false false in
  exists w1 e1 q1 w2 e2 q2,
    invokeOf Live HandleMouseMove 480 w = Normal w1 /\
    sibling Previous (dom w1) = Some e1 /\ flexBasis e1 = Some q1 /\
    invokeOf Live HandleMouseMove 520 w = Normal w2 /\
    sibling Previous (dom w2) = Some e2 /\ flexBasis e2 = Some q2 /\
    (q1 <= q2)%Q.
Proof.
  cbn zeta.
  apply (drag_width_monotone Live (dragging 150 30 2000 300 false false) Previous Left 480 520);
    [reflexivity | reflexivity | reflexivity | ].
  unfold Qle. cbn. lia.
Defined.

(** ** Configuration from attributes *)

Lemma orNumber_nonzero n d : d <> 0 -> orNumber n d <> 0.
Proof.
  intros Hd. unfold orNumber. destruct n as [k|]; [|exact Hd].
  destruct (k =? 0) eqn:Hk; [exact Hd | apply Z.eqb_neq, Hk].
Qed.

(** X15: a numeric configuration value is never zero.  At mount, whatever
    the attributes are, minWidth, maxWidthPercent and defaultWidth are
    non-zero when minWidth, maxWidthPercent and defaultWidth were (as they
    are in a new instance); and in [resizeHandlers.ts] no change of
    min-width or max-width-percent, to a text or by removal, makes the
    field zero. *)
Theorem numeric_configuration_never_zero (w : World) :
  minWidth (this w) <> 0 -> maxWidthPercent (this w) <> 0 -> defaultWidth (this w) <> 0 ->
  let w' := PanelResizeHandler.initializeFromAttributes w in
  (minWidth (this w') <> 0 /\ maxWidthPercent (this w') <> 0 /\ defaultWidth (this w') <> 0) /\
  (forall old new, exists w'',
     ResizeHandlers.attributeChangedCallback "min-width" old new w = Normal w'' /\
     minWidth (this w'') <> 0) /\
  (forall old new, exists w'',
     ResizeHandlers.attributeChangedCallback "max-width-percent" old new w = Normal w'' /\
     maxWidthPercent (this w'') <> 0).
Proof.
  intros Hm Hp Hd. cbn zeta.
  assert (Hm' : minWidth (this (PanelResizeHandler.initializeFromAttributes w)) <> 0).
  { destruct (getAttribute "min-width" w) as [a|] eqn:Ha.
    - rewrite (initialize_minWidth _ _ Ha). apply orNumber_nonzero. lia.
    - unfold PanelResizeHandler.initializeFromAttributes, hasAttribute. rewrite Ha.
      repeat match goal with
             | |- context [if ?b then _ else _] => destruct b
             | |- context [match ?o with Some _ => _ | None => _ end] => destruct o
             end; exact Hm. }
  split; [split; [exact Hm'|split]|split].
  - destruct (getAttribute "max-width-percent" w) as [a|] eqn:Ha.
    + rewrite (initialize_maxWidthPercent _ _ Ha). apply orNumber_nonzero. lia.
    + unfold PanelResizeHandler.initializeFromAttributes, hasAttribute.
      destruct (getAttribute "min-width" w) eqn:Hmw;
        change (getAttribute "max-width-percent" (onThis _ w))
          with (getAttribute "max-width-percent" w);
        rewrite Ha;
        repeat match goal with
               | |- context [if ?b then _ else _] => destruct b
               | |- context [match ?o with Some _ => _ | None => _ end] => destruct o
               end; exact Hp.
  - destruct (getAttribute "initial-width" w) as [a|] eqn:Ha.
    + rewrite (initialize_defaultWidth _ _ Ha). apply orNumber_nonzero. exact Hm'.
    + unfold PanelResizeHandler.initializeFromAttributes, hasAttribute.
      destruct (getAttribute "min-width" w) eqn:Hmw;
        change (getAttribute "max-width-percent" (onThis _ w))
          with (getAttribute "max-width-percent" w);
        destruct (getAttribute "max-width-percent" w) eqn:Hpw;
        repeat match goal with
               | |- context [getAttribute "initial-width" (onThis ?g ?w0)] =>
                   change (getAttribute "initial-width" (onThis g w0))
                     with (getAttribute "initial-width" w0)
               end;
        rewrite Ha;
        repeat match goal with
               | |- context [if ?b then _ else _] => destruct b
               | |- context [match ?o with Some _ => _ | None => _ end] => destruct o
               end; exact Hd.
  - intros old new. eexists. split; [reflexivity|]. cbn. apply orNumber_nonzero. lia.
  - intros old new. eexists. split; [reflexivity|]. cbn. apply orNumber_nonzero. lia.
Qed.

Lemma numeric_configuration_never_zero_witness :
  let w := construct (page {[ "min-width" := "0"; "max-width-percent" := "-0";
                              "initial-width" := "0px" ]} None None 1000) in
  let w' := PanelResizeHandler.initializeFromAttributes w in
  (minWidth (this w') <> 0 /\ maxWidthPercent (this w') <> 0 /\ defaultWidth (this w') <> 0) /\
  (forall old new, exists w'',
     ResizeHandlers.attributeChangedCallback "min-width" old new w = Normal w'' /\
     minWidth (this w'') <> 0) /\
  (forall old new, exists w'',
     ResizeHandlers.attributeChangedCallback "max-width-percent" old new w = Normal w'' /\
     maxWidthPercent (this w'') <> 0).
Proof.
  cbn zeta.
  apply (numeric_configuration_never_zero
           (construct (page {[ "min-width" := "0"; "max-width-percent" := "-0";
                               "initial-width" := "0px" ]} None None 1000)));
    cbn; lia.
Defined.

(** X16: in [resizeHandlers.ts] the removal of a numeric attribute restores
    its default: the callback receives [null], which does not parse, so
    min-width goes back to 150, max-width-percent to 30 and default-width to
    the current minWidth, without an exception. *)
Theorem numeric_attribute_removal_restores_default (w : World) (old : option string) :
  ResizeHandlers.attributeChangedCallback "min-width" old None w
    = Normal (onThis (set_minWidth 150) w) /\
  ResizeHandlers.attributeChangedCallback "max-width-percent" old None w
    = Normal (onThis (set_maxWidthPercent 30) w) /\
  ResizeHandlers.attributeChangedCallback "default-width" old None w
    = Normal (onThis (set_defaultWidth (minWidth (this w))) w) /\
  (forall name, name ∈ ["min-width"; "max-width-percent"; "default-width"] ->
     exists w', ResizeHandlers.setAttribute name None w = Normal w' /\
                getAttribute name w' = None).
Proof.
  repeat split.
  intros name Hin.
  repeat (apply elem_of_cons in Hin as [-> | Hin];
          [eexists; split; [reflexivity|]; cbn; apply lookup_delete_eq|]).
  apply elem_of_nil in Hin. destruct Hin.
Qed.

Lemma initialize_resize w :
  let w' := PanelResizeHandler.initializeFromAttributes w in
  resize (this w') =
    match getAttribute "resize" w with
    | Some a => if String.eqb a "left" then Some Left
                else if String.eqb a "right" then Some Right
                else resize (this w)
    | None => resize (this w)
    end /\
  console (dom w') =
    match getAttribute "resize" w with
    | Some a => if String.eqb a "left" then console (dom w)
                else if String.eqb a "right" then console (dom w)
                else console (dom w) ++ [invalidResize]
    | None => console (dom w)
    end /\
  isCollapsable (this w') = hasAttribute "collapsable" w.
Proof.
  unfold PanelResizeHandler.initializeFromAttributes, hasAttribute, getAttribute.
  destruct w as [f d l]. cbn -[lookup].
  destruct (attributes d !! "min-width"); cbn -[lookup];
    destruct (attributes d !! "max-width-percent"); cbn -[lookup];
    destruct (attributes d !! "initial-width"); cbn -[lookup];
    destruct (attributes d !! "resize") as [a|]; cbn -[lookup];
    try (destruct (String.eqb a "left"); [|destruct (String.eqb a "right")]);
    cbn -[lookup]; destruct (attributes d !! "collapsable"); repeat split.
Qed.

(** X17: the [resize] attribute at mount.  "left" and "right" set the
    direction and report nothing; any other value leaves the direction as
    it was and writes one diagnostic to the console; an absent attribute
    does neither.  With no direction, no target resolves and every bound
    method leaves both siblings as they are: the handle is inert. *)
Theorem resize_attribute_at_mount (w : World) :
  let w' := PanelResizeHandler.initializeFromAttributes w in
  (getAttribute "resize" w = Some "left" ->
   resize (this w') = Some Left /\ console (dom w') = console (dom w)) /\
  (getAttribute "resize" w = Some "right" ->
   resize (this w') = Some Right /\ console (dom w') = console (dom w)) /\
  (forall a, getAttribute "resize" w = Some a -> a <> "left" -> a <> "right" ->
   resize (this w') = resize (this w) /\
   console (dom w') = console (dom w) ++ [invalidResize]) /\
  (getAttribute "resize" w = None ->
   resize (this w') = resize (this w) /\ console (dom w') = console (dom w)) /\
  (resize (this w') = None ->
   forall m x, exists w'',
     PanelResizeHandler.invoke m x w' = Normal w'' /\
     previousElementSibling (dom w'') = previousElementSibling (dom w') /\
     nextElementSibling (dom w'') = nextElementSibling (dom w')).
Proof.
  cbn zeta. destruct (initialize_resize w) as (Hr & Hc & _).
  repeat apply conj.
  - intros Ha. rewrite Ha in Hr, Hc. split; assumption.
  - intros Ha. rewrite Ha in Hr, Hc. split; assumption.
  - intros a Ha Hl Hrt. rewrite Ha in Hr, Hc.
    apply String.eqb_neq in Hl, Hrt. rewrite Hl, Hrt in Hr, Hc. split; assumption.
  - intros Ha. rewrite Ha in Hr, Hc. split; assumption.
  - intros Hnone m x.
    set (w' := PanelResizeHandler.initializeFromAttributes w) in *.
    destruct (method_total AtMount m x w') as [w'' Hw'']. exists w''.
    split; [exact Hw''|].
    assert (Ht : targetOf AtMount w' = None).
    { cbn. unfold PanelResizeHandler.getTargetElement. rewrite Hnone. reflexivity. }
    destruct (handlers_framed _ _ _ _ _ Hw'') as (_ & _ & _ & _ & _ & _ & _ & Ho & _).
    rewrite Ht in Ho. split.
    + apply (Ho Previous). discriminate.
    + apply (Ho Next). discriminate.
Qed.

(** X18: the two variants read [collapsable] differently.  At mount the flag
    is the presence of the attribute, whatever its text (also "false"); in
    [resizeHandlers.ts] a change of the attribute to a text clears the flag
    exactly when the text is "false" in any letter case, and sets it
    otherwise (also for the empty text). *)
Theorem collapsable_by_presence_or_by_text (w : World) :
  (isCollapsable (this (PanelResizeHandler.initializeFromAttributes w)) = true <->
   exists a, getAttribute "collapsable" w = Some a) /\
  (forall old a, exists w',
     ResizeHandlers.attributeChangedCallback "collapsable" old (Some a) w = Normal w' /\
     (isCollapsable (this w') = false <-> lowerString a = "false")).
Proof.
  split.
  - destruct (initialize_resize w) as (_ & _ & ->). unfold hasAttribute.
    destruct (getAttribute "collapsable" w) as [a|]; split; eauto.
    + discriminate.
    + intros [a Ha]. discriminate.
  - intros old a. eexists. split; [reflexivity|]. cbn.
    destruct (String.eqb_spec (lowerString a) "false") as [Heq|Hne]; split;
      congruence.
Qed.

Example collapsable_text_false :
  isCollapsable (this (PanelResizeHandler.initializeFromAttributes
                         (construct (page {[ "collapsable" := "false" ]} None None 1000))))
    = true /\
  (w' ← ResizeHandlers.attributeChangedCallback "collapsable" None (Some "False")
          (construct (page ∅ None None 1000));
   Normal (isCollapsable (this w'))) = Normal false.
Proof. split; reflexivity. Qed.

(** ** The initial width in resizeHandlers.ts *)

Lemma targetOf_write v w s e :
  targetOf v w = Some s -> targetOf v (onDom (set_sibling s (Some e)) w) = Some s.
Proof.
  destruct v; cbn.
  - unfold PanelResizeHandler.getTargetElement. cbn.
    destruct (resize (this w)) as [[|]|];
      destruct (previousElementSibling (dom w)), (nextElementSibling (dom w));
      intros [= <-]; reflexivity.
  - unfold ResizeHandlers.resolved, getAttribute.
    destruct s; cbn;
      destruct (ResizeHandlers.equals _ "left"), (ResizeHandlers.equals _ "right");
      destruct (previousElementSibling (dom w)), (nextElementSibling (dom w));
      cbn; intros [= ]; reflexivity.
Qed.

(** X19: in [resizeHandlers.ts] mounting a handle with a target ends with the
    flex-basis of the target at DEFAULT_WIDTH: the viewport clamp runs
    before the initial width is written, so the initial width is applied as
    it is, also when it lies above the maximum or below MIN_WIDTH. *)
Theorem live_mount_writes_default_width (w : World) (s : Sibling) :
  targetOf Live w = Some s ->
  exists w1 e1,
    ResizeHandlers.connectedCallback w = Normal w1 /\
    sibling s (dom w1) = Some e1 /\
    flexBasis e1 = Some (inject_Z (defaultWidth (this w))).
Proof.
  intros Ht. unfold ResizeHandlers.connectedCallback.
  set (w0 := setupEventListeners (render w)).
  assert (Ht0 : targetOf Live w0 = Some s) by exact Ht.
  destruct (targetOf_sibling _ _ _ Ht0) as [e0 He0].
  assert (Ha : exists wa ea,
             ResizeHandlers.adjustPanelWidth w0 = Normal wa /\
             targetOf Live wa = Some s /\ sibling s (dom wa) = Some ea /\
             defaultWidth (this wa) = defaultWidth (this w)).
  { pose proof (adjust_resolved Live w0 s Ht0) as Hadj. cbn [invokeOf ResizeHandlers.invoke] in Hadj.
    rewrite Hadj. unfold readElement. rewrite He0. cbn -[writeElement].
    destruct (_ && _).
    - rewrite (writeElement_total _ _ _ _ He0). eexists _, _. split; [reflexivity|].
      split; [apply (targetOf_write Live); exact Ht0|].
      split; [apply sibling_set_sibling | reflexivity].
    - exists w0, e0. repeat split; assumption. }
  destruct Ha as (wa & ea & -> & Hta & Hea & Hdw). cbn -[writeElement].
  cbn in Hta. rewrite Hta.
  destruct s; rewrite (writeElement_total _ _ _ _ Hea); cbn;
    eexists _, _; (split; [reflexivity|]); cbn; rewrite Hdw; split; reflexivity.
Qed.

Lemma live_mount_writes_default_width_witness :
  let w := onThis (set_defaultWidth 900) (construct demoPage) in
  exists w1 e1,
    ResizeHandlers.connectedCallback w = Normal w1 /\
    sibling Previous (dom w1) = Some e1 /\
    flexBasis e1 = Some (inject_Z (defaultWidth (this w))).
Proof.
  cbn zeta.
  apply (live_mount_writes_default_width
           (onThis (set_defaultWidth 900) (construct demoPage)) Previous).
  reflexivity.
Defined.

(** ** utils: html *)

Lemma string_app_cons (c : ascii) (s t : string) :
  String c s +:+ t = String c (s +:+ t).
Proof. reflexivity. Qed.

Lemma string_app_empty (s : string) : s +:+ "" = s.
Proof.
  induction s as [|c s IH]; [reflexivity|]. rewrite string_app_cons, IH. reflexivity.
Qed.

Lemma string_app_assoc (a b c : string) : (a +:+ b) +:+ c = a +:+ (b +:+ c).
Proof.
  induction a as [|x a IH]; [reflexivity|]. rewrite !string_app_cons, IH. reflexivity.
Qed.

(** X20: [html] composes.  A template cut after a string that has its value
    gives the text of the first part followed by the text of the second:
    with as many values as strings in the first part,
    [html (strings1 ++ strings2) (values1 ++ values2)] is
    [html strings1 values1] followed by [html strings2 values2]. *)
Theorem html_composes (strings1 strings2 values1 values2 : list string) :
  length values1 = length strings1 ->
  html (strings1 ++ strings2) (values1 ++ values2)
  = html strings1 values1 +:+ html strings2 values2.
Proof.
  revert values1. induction strings1 as [|s strings1 IH]; intros values1 Hlen.
  - destruct values1; [reflexivity | discriminate].
  - destruct values1 as [|v values1]; [discriminate|].
    injection Hlen as Hlen. cbn [html app]. rewrite (IH values1 Hlen).
    rewrite !string_app_assoc. reflexivity.
Qed.

Lemma html_composes_witness :
  html (["<p>"; " and "] ++ ["</p>"]) (["a"; "b"] ++ [])
  = html ["<p>"; " and "] ["a"; "b"] +:+ html ["</p>"] [].
Proof.
  apply (html_composes ["<p>"; " and "] ["</p>"] ["a"; "b"] []). reflexivity.
Defined.

(** X21: [html] with missing or surplus values.  With no value at all the
    result is the strings one after the other (so the template of [render],
    which has no placeholder, is returned as it is); strings beyond the last
    value are appended with nothing between them; and values beyond the
    last string are ignored. *)
Theorem html_missing_and_surplus_values (strings values more : list string) :
  html strings [] = foldr String.app "" strings /\
  html [hostStyle] [] = hostStyle /\
  html (strings ++ more) (take (length strings) values)
    = html strings values +:+ html more [] /\
  html strings (values ++ more) = html strings (take (length strings) (values ++ more)) /\
  (length strings <= length values -> html strings (values ++ more) = html strings values)%nat.
Proof.
  assert (Htake : forall ss vs : list string, html ss vs = html ss (take (length ss) vs)).
  { induction ss as [|s ss IH]; intros vs; [reflexivity|].
    destruct vs as [|v vs]; cbn [html length take]; [reflexivity|].
    rewrite <- IH. reflexivity. }
  split; [|split; [|split; [|split]]].
  - induction strings as [|s strings IH]; [reflexivity|]. cbn. rewrite IH. reflexivity.
  - apply string_app_empty.
  - revert values. induction strings as [|s strings IH]; intros values.
    + destruct values; reflexivity.
    + destruct values as [|v values]; cbn [html app length take].
      * specialize (IH []). rewrite take_nil in IH. rewrite IH.
        rewrite string_app_assoc. reflexivity.
      * rewrite IH. rewrite !string_app_assoc. reflexivity.
  - apply Htake.
  - intros Hlen. rewrite (Htake strings (values ++ more)), (Htake strings values).
    rewrite take_app_le by exact Hlen. reflexivity.
Qed.

(** ** Target resolution *)

(** X22: the target is chosen by the direction alone.  In both variants the
    sibling before the handle is the target exactly when the direction is
    Left and that sibling exists, the sibling after it exactly when the
    direction is Right and that sibling exists; there is no fallback to the
    other sibling, and no target without a direction. *)
Theorem target_resolution (v : Variant) (w : World) (s : Sibling) :
  targetOf v w = Some s <->
  directionIn v w = Some (directionOf s) /\ exists e, sibling s (dom w) = Some e.
Proof.
  destruct v; cbn.
  - unfold PanelResizeHandler.getTargetElement.
    destruct (resize (this w)) as [[|]|];
      destruct (previousElementSibling (dom w)) eqn:Hp;
      destruct (nextElementSibling (dom w)) eqn:Hn;
      destruct s; cbn; rewrite ?Hp, ?Hn;
      (split; [intros Heq | intros [Hd [e' He']]]); try discriminate; eauto.
  - unfold ResizeHandlers.resolved.
    pose proof (equals_left_not_right (getAttribute "resize" w)) as Hlr.
    destruct (ResizeHandlers.equals _ "left"), (ResizeHandlers.equals _ "right");
      try (specialize (Hlr eq_refl); discriminate);
      destruct (previousElementSibling (dom w)) eqn:Hp;
      destruct (nextElementSibling (dom w)) eqn:Hn;
      destruct s; cbn; rewrite ?Hp, ?Hn;
      (split; [intros Heq | intros [Hd [e' He']]]); try discriminate; eauto.
Qed.

(** X23: in [resizeHandlers.ts] the direction follows the attribute.  A
    change of [resize] changes no field of the instance and raises no
    exception, and from then on the handlers resolve the target the new
    text names: the sibling after the handle for "right", the one before it
    for "left", none for any other text. *)
Theorem live_resize_attribute_redirects (w : World) (a : string) :
  exists w',
    ResizeHandlers.setAttribute "resize" (Some a) w = Normal w' /\
    this w' = this w /\
    previousElementSibling (dom w') = previousElementSibling (dom w) /\
    nextElementSibling (dom w') = nextElementSibling (dom w) /\
    directionIn Live w' =
      (if String.eqb a "left" then Some Left
       else if String.eqb a "right" then Some Right else None) /\
    (a <> "left" -> a <> "right" -> targetOf Live w' = None).
Proof.
  eexists. split; [reflexivity|]. cbn -[lookup insert].
  unfold getAttribute, ResizeHandlers.resolved, getAttribute. cbn -[lookup insert].
  rewrite !lookup_insert_eq. cbn.
  repeat split.
  intros Hl Hr. apply String.eqb_neq in Hl, Hr. rewrite Hl, Hr. reflexivity.
Qed.

Example resize_attribute_changed_mid_life :
  let w := mounted Live (page {[ "resize" := "left" ]} (Some (panel 200)) (Some (panel 300)) 1000) in
  targetOf Live w = Some Previous /\
  (w' ← ResizeHandlers.setAttribute "resize" (Some "right") w; Normal (targetOf Live w'))
    = Normal (Some Next) /\
  targetOf AtMount
    (onDom (set_attributes {[ "resize" := "right" ]})
       (mounted AtMount (page {[ "resize" := "left" ]} (Some (panel 200)) (Some (panel 300)) 1000)))
    = Some Previous.
Proof. repeat split. Qed.

(** ** What only a press, a move or a release can change *)

Lemma display_write s0 e g w :
  sibling s0 (dom w) = Some e -> display (g e) = display e ->
  forall s, display <$> sibling s (dom (onDom (set_sibling s0 (Some (g e))) w))
            = display <$> sibling s (dom w).
Proof.
  intros He Hg s. destruct s0, s; cbn in *; rewrite ?He; cbn; rewrite ?Hg; reflexivity.
Qed.

(** X24: visibility changes only in the move of a collapsible handle.  In
    both variants every bound method other than the move handler, and the
    move handler itself when the handle is not collapsible, leaves the
    collapsed flag and the [display] of both siblings as they are: the
    flag persists from one drag session to the next. *)
Theorem collapse_only_in_collapsible_moves (v : Variant) (m : Method) (x : Q) (w : World) :
  m <> HandleMouseMove \/ isCollapsable (this w) = false ->
  exists w',
    invokeOf v m x w = Normal w' /\
    isPanelCollapsed (this w') = isPanelCollapsed (this w) /\
    forall s, display <$> sibling s (dom w') = display <$> sibling s (dom w).
Proof.
  intros Hm. destruct m.
  - destruct v; cbn; eexists; split; [reflexivity| |reflexivity|]; split;
      try reflexivity; intros []; reflexivity.
  - destruct v; cbn; unfold handleMouseLeave; destruct (negb _);
      (eexists; split; [reflexivity|]); split; try reflexivity; intros []; reflexivity.
  - destruct (targetOf v w) as [s0|] eqn:Ht.
    + destruct (targetOf_sibling _ _ _ Ht) as [e He].
      rewrite (press_resolved _ _ _ _ _ Ht He). eexists. split; [reflexivity|].
      split; [reflexivity|]. intros []; reflexivity.
    + destruct v; cbn in *.
      * unfold PanelResizeHandler.handleMouseDown. rewrite Ht.
        eexists. split; [reflexivity|]. split; [reflexivity|]. intros []; reflexivity.
      * unfold ResizeHandlers.handleMouseDown.
        change (ResizeHandlers.resolved _ (onThis _ (onThis _ (onDom _ (setBgColor _ w)))))
          with (ResizeHandlers.resolved (getAttribute "resize" w) w).
        rewrite Ht. cbn. eexists. split; [reflexivity|]. split; [reflexivity|].
        intros []; reflexivity.
  - destruct Hm as [Hm|Hc]; [contradiction|].
    destruct (targetOf v w) as [s0|] eqn:Ht.
    + destruct (isDragging (this w)) eqn:Hd.
      * destruct (targetOf_sibling _ _ _ Ht) as [e He].
        rewrite (move_resolved _ _ _ _ Hd Ht). unfold collapse, clamp. rewrite Hc.
        cbn -[writeElement]. rewrite (writeElement_total _ _ _ _ He).
        eexists. split; [reflexivity|]. split; [reflexivity|].
        apply (display_write s0 e (set_flexBasis _)); [exact He | reflexivity].
      * destruct v; cbn.
        -- unfold PanelResizeHandler.handleMouseMove. rewrite Hd. cbn. eauto.
        -- unfold ResizeHandlers.handleMouseMove. rewrite Hd. cbn. eauto.
    + destruct (move_without_target v w x Ht) as (w1 & -> & Hw1). exists w1.
      split; [reflexivity|]. destruct Hw1 as [->|[msg ->]]; split; try reflexivity;
        intros []; reflexivity.
  - destruct v; cbn; (eexists; split; [reflexivity|]); split; try reflexivity;
      intros []; reflexivity.
  - destruct (adjust_total v w) as [w' Ha]. exists w'.
    split; [destruct v; exact Ha|].
    destruct (targetOf v w) as [s0|] eqn:Ht.
    + destruct (targetOf_sibling _ _ _ Ht) as [e He].
      rewrite (adjust_resolved _ _ _ Ht) in Ha. unfold readElement in Ha.
      rewrite He in Ha. cbn -[writeElement] in Ha. destruct (_ && _) in Ha.
      * rewrite (writeElement_total _ _ _ _ He) in Ha. injection Ha as <-.
        split; [reflexivity|].
        apply (display_write s0 e (set_flexBasis _)); [exact He | reflexivity].
      * injection Ha as <-. split; reflexivity.
    + destruct v; cbn in *.
      * unfold PanelResizeHandler.adjustPanelWidth in Ha. rewrite Ht in Ha.
        injection Ha as <-. split; reflexivity.
      * unfold ResizeHandlers.adjustPanelWidth in Ha. rewrite Ht in Ha.
        injection Ha as <-. split; reflexivity.
Qed.

Lemma collapse_only_in_collapsible_moves_witness :
  let w := dragging 150 30 1000 300 false false in
  exists w',
    invokeOf Live HandleMouseMove 100 w = Normal w' /\
    isPanelCollapsed (this w') = isPanelCollapsed (this w) /\
    forall s, display <$> sibling s (dom w') = display <$> sibling s (dom w).
Proof.
  cbn zeta.
  apply (collapse_only_in_collapsible_moves Live HandleMouseMove 100
           (dragging 150 30 1000 300 false false)).
  right. reflexivity.
Defined.

Lemma quiet_fields v m x w w' :
  m <> HandleMouseDown -> m <> HandleMouseUp ->
  invokeOf v m x w = Normal w' ->
  isDragging (this w') = isDragging (this w) /\
  initialX (this w') = initialX (this w) /\
  currentSiblingWidth (this w') = currentSiblingWidth (this w).
Proof.
  intros Hnd Hnu. destruct m; try contradiction.
  - destruct v; cbn; intros [= <-]; repeat split.
  - destruct v; cbn; unfold handleMouseLeave; destruct (negb _); intros [= <-]; repeat split.
  - destruct (targetOf v w) as [s|] eqn:Ht.
    + destruct (isDragging (this w)) eqn:Hd.
      * destruct (targetOf_sibling _ _ _ Ht) as [e He].
        rewrite (move_resolved _ _ _ _ Hd Ht).
        destruct (collapse_clamp s (candidateOf v s x w) w e He) as (d & b & ->).
        intros [= <-]. cbn. rewrite Hd. repeat split.
      * destruct v; cbn.
        -- unfold PanelResizeHandler.handleMouseMove. rewrite Hd. intros [= <-].
           rewrite Hd. repeat split.
        -- unfold ResizeHandlers.handleMouseMove. rewrite Hd. intros [= <-].
           rewrite Hd. repeat split.
    + destruct (move_without_target v w x Ht) as (w1 & -> & Hw1). intros [= <-].
      destruct Hw1 as [->|[msg ->]]; repeat split.
  - intros Ha. assert (Ha0 : invokeOf v AdjustPanelWidth 0%Q w = Normal w')
      by (destruct v; exact Ha). clear Ha.
    destruct (targetOf v w) as [s|] eqn:Ht.
    + destruct (targetOf_sibling _ _ _ Ht) as [e He].
      rewrite (adjust_resolved _ _ _ Ht) in Ha0. unfold readElement in Ha0.
      rewrite He in Ha0. cbn -[writeElement] in Ha0. destruct (_ && _) in Ha0.
      * rewrite (writeElement_total _ _ _ _ He) in Ha0. injection Ha0 as <-. repeat split.
      * injection Ha0 as <-. repeat split.
    + destruct v; cbn in *.
      * unfold PanelResizeHandler.adjustPanelWidth in Ha0. rewrite Ht in Ha0.
        injection Ha0 as <-. repeat split.
      * unfold ResizeHandlers.adjustPanelWidth in Ha0. rewrite Ht in Ha0.
        injection Ha0 as <-. repeat split.
Qed.

(** X25: a drag session changes only at a press and at a release.  In both
    variants every other bound method leaves the flag [isDragging], the
    origin and the base width as they are, and registers or removes no
    listener: the base width captured at the press holds for the whole
    session. *)
Theorem session_changes_only_at_press_and_release
  (v : Variant) (m : Method) (x : Q) (w : World) :
  m <> HandleMouseDown -> m <> HandleMouseUp ->
  exists w',
    invokeOf v m x w = Normal w' /\
    isDragging (this w') = isDragging (this w) /\
    initialX (this w') = initialX (this w) /\
    currentSiblingWidth (this w') = currentSiblingWidth (this w) /\
    events w' = events w.
Proof.
  intros Hnd Hnu. destruct (method_total v m x w) as [w' Hw']. exists w'.
  split; [exact Hw'|].
  destruct (quiet_fields _ _ _ _ _ Hnd Hnu Hw') as (Hd & Hx & Hc).
  repeat (split; [assumption|]). exact (quiet_methods _ _ _ _ _ Hnd Hnu Hw').
Qed.

Lemma session_changes_only_at_press_and_release_witness :
  let w := dragging 150 30 1000 300 true false in
  exists w',
    invokeOf AtMount HandleMouseMove 120 w = Normal w' /\
    isDragging (this w') = isDragging (this w) /\
    initialX (this w') = initialX (this w) /\
    currentSiblingWidth (this w') = currentSiblingWidth (this w) /\
    events w' = events w.
Proof.
  cbn zeta.
  apply (session_changes_only_at_press_and_release AtMount HandleMouseMove 120
           (dragging 150 30 1000 300 true false)); discriminate.
Defined.
